(** * Doctor router and admin login: a shallow embedding

    The Express handlers of [src/routes/doctor.js] and the admin login of the
    application entry file are written here as functions in a small state and
    exception monad over the document store, the session and the console.
    External collaborators (bcrypt, the identifier generator, the mail
    service, the media host, the runtime's date formatting) are fields of an
    environment record, so every theorem holds for all of them. *)

From stdpp Require Import base strings list gmap sorting.
From Stdlib Require Import ZArith Ascii String.

Local Open Scope string_scope.

(** ** The fragment of JavaScript the handlers rely on *)

Module JS.

(** Thrown values: [TypeError] from the runtime, [Error] from libraries. *)
Inductive exn :=
| TypeError (msg : string)
| Error (msg : string).

Definition message (e : exn) : string :=
  match e with
  | TypeError m => m
  | Error m => m
  end.

(** A body field read by the doctor router is a string or [undefined]. *)
Definition typeof (v : option string) : string :=
  match v with
  | Some _ => "string"
  | None => "undefined"
  end.

(** Truthiness: [undefined] and the empty string are falsy. *)
Definition truthy (v : option string) : bool :=
  match v with
  | Some s => negb (String.eqb s "")
  | None => false
  end.

(** [a || b] where [b] is a string. *)
Definition or_else (a : option string) (b : string) : string :=
  match a with
  | Some s => if String.eqb s "" then b else s
  | None => b
  end.

(** Interpolation [`${v}`] inside a template literal. *)
Definition interpolate (v : option string) : string :=
  match v with
  | Some s => s
  | None => "undefined"
  end.

Definition lower_ascii (c : ascii) : ascii :=
  let n := N_of_ascii c in
  if ((65 <=? n) && (n <=? 90))%N then ascii_of_N (n + 32) else c.

(** Lower-casing of the letters A-Z, every other byte kept: what
    [String.prototype.toLowerCase] does on ASCII text.  The runtime's own
    function, which also maps the cased letters outside ASCII, is a field of
    the environment; this one serves the sample environments. *)
Fixpoint ascii_toLowerCase (s : string) : string :=
  match s with
  | EmptyString => EmptyString
  | String c r => String (lower_ascii c) (ascii_toLowerCase r)
  end.

(** Values of a parsed request body as far as [==] against a string
    distinguishes them: [express.json] and the extended urlencoded parser
    both deliver arrays as well as strings.  Numbers and booleans compare
    through the numeric value of the string operand and are left out. *)
#[warnings="-register-all"]
Inductive value :=
| Undefined
| Null
| Str (s : string)
| Arr (elems : list value).

Fixpoint join (sep : string) (l : list string) : string :=
  match l with
  | [] => ""
  | [x] => x
  | x :: r => x +:+ sep +:+ join sep r
  end.

(** [ToString]; an array prints as its elements joined by commas, with
    [undefined] and [null] elements printed as the empty string. *)
Fixpoint toString (v : value) : string :=
  match v with
  | Undefined => "undefined"
  | Null => "null"
  | Str s => s
  | Arr l =>
      join "," (map (fun e => match e with
                              | Undefined | Null => ""
                              | _ => toString e
                              end) l)
  end.

(** [v == c] for a string [c]: [undefined] and [null] equal only each
    other, a string is compared as it is, an array through [ToPrimitive],
    which is its [toString]. *)
Definition loose_eq_string (v : value) (c : string) : bool :=
  match v with
  | Undefined | Null => false
  | Str s => String.eqb s c
  | Arr _ => String.eqb (toString v) c
  end.

(** [v === c] for a string [c]. *)
Definition strict_eq_string (v : value) (c : string) : bool :=
  match v with
  | Str s => String.eqb s c
  | _ => false
  end.

End JS.

(** ** Documents *)

Module Doctor.
(** Modelled from the spec: the doctor schema of [models/doctor.js] is not
    among the sources.  The fields are those of the data model (unique
    email, password hash, name, phone, gender, specialization, location,
    hospital name, generated doctor identifier, approval status, optional
    profile picture URL) under the names the router uses; a field read from
    a request body may be absent. *)
Record t := mk {
  name : option string;
  email : option string;
  passwordHash : option string;
  phone : option string;
  gender : option string;
  specialization : option string;
  location : option string;
  hospitalName : option string;
  doctorid : string;
  status : option string;
  profilePicture : option string
}.
End Doctor.

Module Appointment.
(** Modelled from the spec: the appointment schema of
    [models/appointment.js] is not among the sources.  An appointment
    references a doctor identifier and patient contact, and has a status, a
    time slot, a date, a confirmation message and a creation time; its
    [_id] is the key under which the collection holds it. *)
Record t := mk {
  doctorid : option string;
  patientEmail : option string;
  status : option string;
  timeSlot : option string;
  appointmentDate : option string;
  confirmationMessage : option string;
  createdAt : Z
}.
End Appointment.

(** ** Requests, sessions and responses *)

Module Body.
(** [req.body]: every field the router destructures, each a string or
    absent.  Bodies with a field of another type are not among the requests
    considered. *)
Record t := mk {
  name : option string;
  email : option string;
  password : option string;
  phone : option string;
  gender : option string;
  specialization : option string;
  location : option string;
  hospitalName : option string;
  timeSlot : option string;
  appointmentDate : option string;
  confirmationMessage : option string
}.

Definition empty : t :=
  mk None None None None None None None None None None None.
End Body.

Record Session := mkSession {
  doctorId : option string;
  doctorEmail : option string
}.

Record Request := mkRequest {
  params_appointmentId : string;
  body : Body.t;
  file : option string
}.

Inductive Payload :=
| Message (success : bool) (message : string)
| Registered (message : string) (doctorId : string)
| LoggedIn (message : string) (doctorId : string) (redirectUrl : string)
| Profile (doctor : Doctor.t)
| ProfileUpdated (message : string) (doctor : option Doctor.t)
| PictureUploaded (message : string) (profilePicture : string)
    (doctor : option Doctor.t)
| AppointmentList (appointments : list Appointment.t)
| AppointmentConfirmed (message : string) (appointment : Appointment.t)
    (emailSent : bool)
| AdminInvalid (status : N) (valid : string).

(** The value handed to [res.cookie]: the call [JSON.stringify(v, replacer)],
    kept symbolic. *)
Inductive CookieValue :=
| JSON_stringify (v replacer : JS.value).

Inductive Response :=
| Json (status : N) (payload : Payload)
| Redirect (location : string)
| CookieRedirect (cookie : string) (value : CookieValue) (location : string)
| Render (view : string) (doctor : Doctor.t) (appointments : list Appointment.t)
| Send (status : N) (text : string).

(** The HTTP status line: [res.json] without [res.status] answers 200 and
    [res.redirect] answers 302. *)
Definition status_code (r : Response) : N :=
  match r with
  | Json s _ => s
  | Redirect _ => 302
  | CookieRedirect _ _ _ => 302
  | Render _ _ _ => 200
  | Send s _ => s
  end.

Definition is_redirect (r : Response) : bool :=
  match r with
  | Redirect _ | CookieRedirect _ _ _ => true
  | _ => false
  end.

Definition sets_cookie (r : Response) : bool :=
  match r with
  | CookieRedirect _ _ _ => true
  | _ => false
  end.

(** ** The world a handler runs in *)

Inductive Event :=
| console_log (label : string)
| console_error (label : string)
| call (fn : string).

Record World := mkWorld {
  doctors : list Doctor.t;
  appointments : gmap string Appointment.t;
  session : option Session;
  draws : nat;
  trace : list Event
}.

Inductive result (A : Type) :=
| Ok (a : A)
| Throw (e : JS.exn).
Arguments Ok {A} a.
Arguments Throw {A} e.

Definition M (A : Type) : Type := World -> result A * World.

#[global] Instance M_ret : MRet M := fun A a w => (Ok a, w).

#[global] Instance M_bind : MBind M := fun A B f m w =>
  match m w with
  | (Ok a, w') => f a w'
  | (Throw e, w') => (Throw e, w')
  end.

Definition throw {A} (e : JS.exn) : M A := fun w => (Throw e, w).

(** [try { m } catch (error) { h error }]: effects of [m] before the throw
    stay. *)
Definition try_catch {A} (m : M A) (h : JS.exn -> M A) : M A := fun w =>
  match m w with
  | (Ok a, w') => (Ok a, w')
  | (Throw e, w') => h e w'
  end.

Definition emit (e : Event) : M unit := fun w =>
  (Ok tt, mkWorld (doctors w) (appointments w) (session w) (draws w)
            (trace w ++ [e])).

Definition get_doctors : M (list Doctor.t) := fun w => (Ok (doctors w), w).
Definition put_doctors (ds : list Doctor.t) : M unit := fun w =>
  (Ok tt, mkWorld ds (appointments w) (session w) (draws w) (trace w)).

Definition get_appointments : M (gmap string Appointment.t) :=
  fun w => (Ok (appointments w), w).
Definition put_appointments (m : gmap string Appointment.t) : M unit := fun w =>
  (Ok tt, mkWorld (doctors w) m (session w) (draws w) (trace w)).

Definition get_session : M (option Session) := fun w => (Ok (session w), w).
Definition put_session (s : option Session) : M unit := fun w =>
  (Ok tt, mkWorld (doctors w) (appointments w) s (draws w) (trace w)).

(** A fresh index into the random oracles. *)
Definition draw : M nat := fun w =>
  (Ok (draws w),
   mkWorld (doctors w) (appointments w) (session w) (S (draws w)) (trace w)).

(** The events a run from [w] to [w'] added to the trace. *)
Definition events_of (w w' : World) : list Event :=
  drop (List.length (trace w)) (trace w').

(** What a request leaves behind: the response, or the exception that
    escaped the handler. *)
Definition response_of (r : result Response * World) : option Response :=
  match r.1 with
  | Ok resp => Some resp
  | Throw _ => None
  end.

(** ** Collaborators outside the repository's source *)

Record EmailResult := mkEmailResult {
  success : bool;
  error : option string
}.

Record Env := mkEnv {
  (** [bcrypt.hash(password, saltRounds)]; the salt is the [n]-th random draw. *)
  bcrypt_hash : string -> N -> nat -> string;
  (** [bcrypt.compare(password, hash)] on two strings. *)
  bcrypt_compare : string -> string -> bool;
  (** [generateCode()] of [services/uniqueID.js] at the [n]-th random draw. *)
  generateCode : nat -> string;
  (** [sendAppointmentConfirmationEmail] of [services/emailService.js]: it
      resolves to a result object or rejects. *)
  sendAppointmentConfirmationEmail :
    Appointment.t -> option Doctor.t -> result EmailResult;
  (** [new Date(v).toLocaleDateString()], which depends on the host locale. *)
  toLocaleDateString : option string -> string;
  (** [cloudinary.uploader.upload(path, ...)], resolving to [secure_url]. *)
  cloudinary_upload : string -> result string;
  (** Whether Mongoose drops [undefined] members of an update document
      (version 6 and later) or writes them as [null] (version 5). *)
  omitUndefined : bool;
  (** [String.prototype.toLowerCase] of the runtime. *)
  toLowerCase : string -> string;
  (** The error with which Mongoose rejects a query whose [_id] it cannot
      cast to the type the appointment schema gives it (an ObjectId unless
      the schema, which is not among the sources, says otherwise); [None]
      for an id it can cast. *)
  cast_id_error : string -> option JS.exn;
  (** The error with which [DoctorModel.create] rejects a document, given
      the doctors stored: schema validation or a unique index of the schema
      of [models/doctor.js]; [None] when the document is accepted. *)
  create_error : list Doctor.t -> Doctor.t -> option JS.exn
}.

(** ** Store operations (Mongoose queries on the two collections) *)

(** The first document whose [email] equals the filter's; a filter member
    that is [undefined] matches the documents lacking the field. *)
Definition doctor_by_email (ds : list Doctor.t) (e : option string)
  : option Doctor.t :=
  find (fun d => bool_decide (Doctor.email d = e)) ds.

(** The first document whose [doctorid] equals the filter's. *)
Definition doctor_by_id (ds : list Doctor.t) (i : option string)
  : option Doctor.t :=
  find (fun d => bool_decide (Some (Doctor.doctorid d) = i)) ds.

(** [DoctorModel.findOne({ email })]. *)
Definition DoctorModel_findOne_email (e : option string) : M (option Doctor.t) :=
  emit (call "DoctorModel.findOne");;
  ds ← get_doctors;
  mret (doctor_by_email ds e).

(** [DoctorModel.findOne({ doctorid })]. *)
Definition DoctorModel_findOne_doctorid (i : option string) : M (option Doctor.t) :=
  emit (call "DoctorModel.findOne");;
  ds ← get_doctors;
  mret (doctor_by_id ds i).

(** [DoctorModel.create(d)]: the store appends the document it accepts and
    rejects the one it does not. *)
Definition DoctorModel_create (env : Env) (d : Doctor.t) : M Doctor.t :=
  emit (call "DoctorModel.create");;
  ds ← get_doctors;
  match create_error env ds d with
  | Some e => throw e
  | None => put_doctors (ds ++ [d]);; mret d
  end.

(** Rewrites the first element satisfying [p] and returns it as rewritten. *)
Fixpoint update_first {A} (p : A -> bool) (f : A -> A) (l : list A)
  : list A * option A :=
  match l with
  | [] => ([], None)
  | x :: r =>
      if p x then (f x :: r, Some (f x))
      else let '(r', o) := update_first p f r in (x :: r', o)
  end.

(** [findOneAndUpdate({ doctorid }, update, { new: true })]. *)
Definition DoctorModel_findOneAndUpdate_doctorid
    (i : option string) (update : Doctor.t -> Doctor.t) : M (option Doctor.t) :=
  emit (call "DoctorModel.findOneAndUpdate");;
  ds ← get_doctors;
  let '(ds', o) :=
    update_first (fun d => bool_decide (Some (Doctor.doctorid d) = i)) update ds in
  put_doctors ds';;
  mret o.

(** [.select("-passwordHash")]. *)
Definition select_minus_passwordHash (d : Doctor.t) : Doctor.t :=
  Doctor.mk (Doctor.name d) (Doctor.email d) None (Doctor.phone d)
    (Doctor.gender d) (Doctor.specialization d) (Doctor.location d)
    (Doctor.hospitalName d) (Doctor.doctorid d) (Doctor.status d)
    (Doctor.profilePicture d).

(** One member of an update document against the stored field. *)
Definition set_field (omit : bool) (old new : option string) : option string :=
  match new with
  | Some v => Some v
  | None => if omit then old else None
  end.

Definition newest_first (a b : Appointment.t) : Prop :=
  (Appointment.createdAt b <= Appointment.createdAt a)%Z.

#[global] Instance newest_first_dec a b : Decision (newest_first a b).
Proof. unfold newest_first. apply _. Defined.

(** The documents of the appointment collection that reference doctor [i]. *)
Definition appointments_of (m : gmap string Appointment.t) (i : option string)
  : list Appointment.t :=
  filter (fun a => Appointment.doctorid a = i) (map_to_list m).*2.

(** [appointment.find({ doctorid }).sort({ createdAt: -1 })]. *)
Definition appointment_find_sorted (i : option string) : M (list Appointment.t) :=
  emit (call "appointment.find");;
  m ← get_appointments;
  mret (merge_sort newest_first (appointments_of m i)).

(** [appointment.findOne({ _id, doctorid })].  Mongoose casts the [_id] of
    the filter before it asks the store and rejects when it cannot.  A key
    of the collection is an [_id] the store assigned, so the cast can fail
    only for an id under which nothing is stored. *)
Definition appointment_findOne (env : Env) (id : string) (i : option string)
  : M (option Appointment.t) :=
  emit (call "appointment.findOne");;
  m ← get_appointments;
  match m !! id with
  | Some a =>
      mret (if bool_decide (Appointment.doctorid a = i) then Some a else None)
  | None =>
      match cast_id_error env id with
      | Some e => throw e
      | None => mret None
      end
  end.

(** [document.save()] of a document loaded under [_id]. *)
Definition appointment_save (id : string) (a : Appointment.t) : M unit :=
  emit (call "appointment.save");;
  m ← get_appointments;
  put_appointments (<[id := a]> m).

(** ** The handlers of [src/routes/doctor.js] *)

Section Handlers.

Context (env : Env).

(** [req.session.doctorId], read inside a handler. *)
Definition session_doctorId : M (option string) :=
  s ← get_session;
  match s with
  | Some sess => mret (doctorId sess)
  | None =>
      throw (JS.TypeError
               "Cannot read properties of undefined (reading 'doctorId')")
  end.

(** [req.session.doctorId = i; req.session.doctorEmail = e]. *)
Definition session_set (i : string) (e : option string) : M unit :=
  s ← get_session;
  match s with
  | Some _ => put_session (Some (mkSession (Some i) e))
  | None =>
      throw (JS.TypeError
               "Cannot set properties of undefined (setting 'doctorId')")
  end.

(** [v.toLowerCase()] on a body field. *)
Definition toLowerCase_field (v : option string) : M string :=
  match v with
  | Some s => mret (toLowerCase env s)
  | None =>
      throw (JS.TypeError
               "Cannot read properties of undefined (reading 'toLowerCase')")
  end.

(** [await bcrypt.hash(password, saltRounds)]. *)
Definition bcrypt_hash_call (password : option string) (saltRounds : N)
  : M string :=
  emit (call "bcrypt.hash");;
  match password with
  | Some p => n ← draw; mret (bcrypt_hash env p saltRounds n)
  | None =>
      throw (JS.Error ("Illegal arguments: " +:+ JS.typeof password
                       +:+ ", number"))
  end.

(** [await bcrypt.compare(password, hash)]. *)
Definition bcrypt_compare_call (password hash : option string) : M bool :=
  emit (call "bcrypt.compare");;
  match password, hash with
  | Some p, Some h => mret (bcrypt_compare env p h)
  | _, _ =>
      throw (JS.Error ("Illegal arguments: " +:+ JS.typeof password
                       +:+ ", " +:+ JS.typeof hash))
  end.

Definition generateCode_call : M string :=
  emit (call "generateCode");;
  n ← draw;
  mret (generateCode env n).

(** Middleware to check if doctor is logged in. *)
Definition isDoctorLoggedIn (next : M Response) : M Response :=
  s ← get_session;
  match s with
  | Some sess =>
      if JS.truthy (doctorId sess) then next
      else mret (Redirect "/doctorLogin")
  | None => mret (Redirect "/doctorLogin")
  end.

(** POST /register *)
Definition register (req : Request) : M Response :=
  try_catch
    (let b := body req in
     existingDoctor ← DoctorModel_findOne_email (Body.email b);
     match existingDoctor with
     | Some _ =>
         mret (Json 400 (Message false "Doctor with this email already exists"))
     | None =>
         let saltRounds := 10%N in
         passwordHash ← bcrypt_hash_call (Body.password b) saltRounds;
         doctorid ← generateCode_call;
         specialization ← toLowerCase_field (Body.specialization b);
         location ← toLowerCase_field (Body.location b);
         newDoctor ← DoctorModel_create env
           (Doctor.mk (Body.name b) (Body.email b) (Some passwordHash)
              (Body.phone b) (Body.gender b) (Some specialization)
              (Some location) (Some (JS.or_else (Body.hospitalName b) ""))
              doctorid (Some "pending") None);
         mret (Json 201
                 (Registered
                    "Doctor registered successfully! Please wait for admin approval."
                    doctorid))
     end)
    (fun error =>
       emit (console_error "Doctor registration error:");;
       mret (Json 500
               (Message false ("Error registering doctor: " +:+ JS.message error)))).

(** POST /login *)
Definition login (req : Request) : M Response :=
  try_catch
    (let b := body req in
     foundDoctor ← DoctorModel_findOne_email (Body.email b);
     match foundDoctor with
     | None => mret (Json 401 (Message false "Invalid email or password"))
     | Some d =>
         if negb (bool_decide (Doctor.status d = Some "approved")) then
           mret (Json 403
                   (Message false
                      "Your account is pending approval. Please wait for admin approval."))
         else
           isPasswordValid ← bcrypt_compare_call (Body.password b)
                               (Doctor.passwordHash d);
           if negb isPasswordValid then
             mret (Json 401 (Message false "Invalid email or password"))
           else
             session_set (Doctor.doctorid d) (Doctor.email d);;
             mret (Json 200
                     (LoggedIn "Login successful" (Doctor.doctorid d)
                        "/doctor/dashboard"))
     end)
    (fun error =>
       emit (console_error "Doctor login error:");;
       mret (Json 500
               (Message false ("Error during login: " +:+ JS.message error)))).

(** GET /dashboard *)
Definition dashboard (req : Request) : M Response :=
  isDoctorLoggedIn
    (try_catch
       (doctorId ← session_doctorId;
        foundDoctor ← DoctorModel_findOne_doctorid doctorId;
        match foundDoctor with
        | None => mret (Redirect "/doctorLogin")
        | Some d =>
            appointments ← appointment_find_sorted doctorId;
            mret (Render "doctorDashboard" d appointments)
        end)
       (fun error =>
          emit (console_error "Dashboard error:");;
          mret (Send 500 ("Error loading dashboard: " +:+ JS.message error)))).

(** GET /profile *)
Definition profile (req : Request) : M Response :=
  isDoctorLoggedIn
    (try_catch
       (doctorId ← session_doctorId;
        foundDoctor ← DoctorModel_findOne_doctorid doctorId;
        match foundDoctor with
        | None => mret (Json 404 (Message false "Doctor not found"))
        | Some d => mret (Json 200 (Profile (select_minus_passwordHash d)))
        end)
       (fun error =>
          emit (console_error "Profile fetch error:");;
          mret (Json 500 (Message false "Error fetching profile")))).

(** The update document [{ name, phone, specialization, location,
    hospitalName }] applied to a stored doctor. *)
Definition profile_fields (b : Body.t) (d : Doctor.t) : Doctor.t :=
  let set := set_field (omitUndefined env) in
  Doctor.mk (set (Doctor.name d) (Body.name b)) (Doctor.email d)
    (Doctor.passwordHash d) (set (Doctor.phone d) (Body.phone b))
    (Doctor.gender d)
    (set (Doctor.specialization d) (Body.specialization b))
    (set (Doctor.location d) (Body.location b))
    (set (Doctor.hospitalName d) (Body.hospitalName b))
    (Doctor.doctorid d) (Doctor.status d) (Doctor.profilePicture d).

(** POST /profile/update *)
Definition profile_update (req : Request) : M Response :=
  isDoctorLoggedIn
    (try_catch
       (doctorId ← session_doctorId;
        updatedDoctor ← DoctorModel_findOneAndUpdate_doctorid doctorId
                          (profile_fields (body req));
        mret (Json 200
                (ProfileUpdated "Profile updated successfully"
                   (select_minus_passwordHash <$> updatedDoctor))))
       (fun error =>
          emit (console_error "Profile update error:");;
          mret (Json 500
                  (Message false
                     ("Error updating profile: " +:+ JS.message error))))).

Definition picture_field (url : string) (d : Doctor.t) : Doctor.t :=
  Doctor.mk (Doctor.name d) (Doctor.email d) (Doctor.passwordHash d)
    (Doctor.phone d) (Doctor.gender d) (Doctor.specialization d)
    (Doctor.location d) (Doctor.hospitalName d) (Doctor.doctorid d)
    (Doctor.status d) (Some url).

(** POST /profile/picture.  [file req] is [req.file] as the upload
    middleware [upload.single("profilePicture")] leaves it; a request the
    middleware itself refuses never reaches this handler. *)
Definition profile_picture (req : Request) : M Response :=
  isDoctorLoggedIn
    (try_catch
       (doctorId ← session_doctorId;
        match file req with
        | None => mret (Json 400 (Message false "No file uploaded"))
        | Some path =>
            emit (call "cloudinary.uploader.upload");;
            match cloudinary_upload env path with
            | Throw e => throw e
            | Ok secure_url =>
                updatedDoctor ← DoctorModel_findOneAndUpdate_doctorid doctorId
                                  (picture_field secure_url);
                mret (Json 200
                        (PictureUploaded "Profile picture uploaded successfully"
                           secure_url
                           (select_minus_passwordHash <$> updatedDoctor)))
            end
        end)
       (fun error =>
          emit (console_error "Profile picture upload error:");;
          mret (Json 500
                  (Message false
                     ("Error uploading profile picture: " +:+ JS.message error))))).

(** GET /appointments *)
Definition get_appointments_route (req : Request) : M Response :=
  isDoctorLoggedIn
    (try_catch
       (doctorId ← session_doctorId;
        appointments ← appointment_find_sorted doctorId;
        mret (Json 200 (AppointmentList appointments)))
       (fun error =>
          emit (console_error "Appointments fetch error:");;
          mret (Json 500 (Message false "Error fetching appointments")))).

(** Helper function to get doctor details. *)
Definition getDoctorById (doctorId : option string) : M (option Doctor.t) :=
  try_catch
    (emit (console_log "Fetching doctor details for:");;
     doctorData ← DoctorModel_findOne_doctorid doctorId;
     match doctorData with
     | None => emit (console_log "No doctor found with ID:");; mret None
     | Some d => emit (console_log "Doctor found:");; mret (Some d)
     end)
    (fun error =>
       emit (console_error "Error fetching doctor details:");;
       mret None).

(** The message used when the request brings none. *)
Definition default_confirmationMessage (timeSlot appointmentDate : option string)
  : string :=
  "Your appointment has been confirmed for " +:+ JS.interpolate timeSlot
  +:+ " on " +:+ toLocaleDateString env appointmentDate.

(** The assignments made to the found appointment before [save]. *)
Definition confirmed (b : Body.t) (a : Appointment.t) : Appointment.t :=
  Appointment.mk (Appointment.doctorid a) (Appointment.patientEmail a)
    (Some "confirmed") (Body.timeSlot b) (Body.appointmentDate b)
    (Some (JS.or_else (Body.confirmationMessage b)
             (default_confirmationMessage (Body.timeSlot b)
                (Body.appointmentDate b))))
    (Appointment.createdAt a).

(** Send email notification to patient. *)
Definition notify_patient (a : Appointment.t) (doctorId : option string)
  : M unit :=
  try_catch
    (doctorDetails ← getDoctorById doctorId;
     emit (console_log "Doctor details:");;
     emit (call "sendAppointmentConfirmationEmail");;
     match sendAppointmentConfirmationEmail env a doctorDetails with
     | Throw e => throw e
     | Ok emailResult =>
         if success emailResult then
           emit (console_log
                   "Appointment confirmation email sent successfully to:")
         else
           emit (console_error
                   "Failed to send appointment confirmation email:")
     end)
    (fun emailError => emit (console_error "Error in email sending process:")).

(** POST /appointments/:appointmentId/confirm *)
Definition confirm (req : Request) : M Response :=
  isDoctorLoggedIn
    (try_catch
       (let appointmentId := params_appointmentId req in
        let b := body req in
        doctorId ← session_doctorId;
        emit (console_log "The doctor is in appoints route ");;
        emit (console_log "Confirming appointment:");;
        foundAppointment ← appointment_findOne env appointmentId doctorId;
        match foundAppointment with
        | None => mret (Json 404 (Message false "Appointment not found"))
        | Some a =>
            let a' := confirmed b a in
            appointment_save appointmentId a';;
            notify_patient a' doctorId;;
            mret (Json 200
                    (AppointmentConfirmed
                       "Appointment confirmed successfully. Patient will be notified."
                       a' true))
        end)
       (fun error =>
          emit (console_error "Appointment confirmation error:");;
          mret (Json 500
                  (Message false
                     ("Error confirming appointment: " +:+ JS.message error))))).

(** The routes of the doctor router ([/logout] takes no part here). *)
Inductive Route :=
| POST_register
| POST_login
| GET_dashboard
| GET_profile
| POST_profile_update
| POST_profile_picture
| GET_appointments
| POST_appointments_confirm.

Definition doctorRouter (r : Route) : Request -> M Response :=
  match r with
  | POST_register => register
  | POST_login => login
  | GET_dashboard => dashboard
  | GET_profile => profile
  | POST_profile_update => profile_update
  | POST_profile_picture => profile_picture
  | GET_appointments => get_appointments_route
  | POST_appointments_confirm => confirm
  end.

(** Routes registered with [isDoctorLoggedIn]. *)
Definition protected (r : Route) : bool :=
  match r with
  | POST_register | POST_login => false
  | _ => true
  end.

(** Routes that answer with [res.json] on their success path. *)
Definition json_api (r : Route) : bool :=
  match r with
  | GET_dashboard => false
  | _ => true
  end.

End Handlers.

(** ** Admin login of the application entry file (POST /admin) *)

Definition admin_login (email password : JS.value) : M Response :=
  emit (console_log "The admin details are");;
  emit (call "admin.find");;
  emit (console_log "response");;
  try_catch
    (if JS.loose_eq_string email "admin@gmail.com"
        && JS.loose_eq_string password "asdf"
     then mret (CookieRedirect "admin" (JSON_stringify email password)
                  "/adminPage")
     else mret (Json 200 (AdminInvalid 400 "Invalid Email!")))
    (fun error =>
       emit (console_error "error");;
       mret (Send 500 "⚠️ Server error during admin login")).

(** ** Logout of the doctor router (POST /logout) *)

(** [req.session.destroy(callback)]; [store_error] is the error the session
    store hands to the callback, if any.  The route has no gate and no
    [try]: without a session object the property read throws out of the
    handler.  A destroyed session is gone for the requests that follow; when
    the store fails, the session it still holds stays. *)
Definition logout (store_error : option JS.exn) (req : Request) : M Response :=
  s ← get_session;
  match s with
  | None =>
      throw (JS.TypeError
               "Cannot read properties of undefined (reading 'destroy')")
  | Some _ =>
      emit (call "req.session.destroy");;
      match store_error with
      | Some err => mret (Json 500 (Message false "Error logging out"))
      | None =>
          put_session None;;
          mret (Json 200 (Message true "Logged out successfully"))
      end
  end.

(** ** Predicates and auxiliary values used in the statements *)


(** A session that passes [isDoctorLoggedIn]. *)
Definition doctor_session (w : World) (sess : Session) : Prop :=
  session w = Some sess ∧ JS.truthy (doctorId sess) = true.

(** The document [DoctorModel.create] receives for a complete form. *)
Definition registered_doctor (env : Env) (b : Body.t) (p s l : string) (n : nat)
  : Doctor.t :=
  Doctor.mk (Body.name b) (Body.email b) (Some (bcrypt_hash env p 10 n))
    (Body.phone b) (Body.gender b) (Some (toLowerCase env s))
    (Some (toLowerCase env l)) (Some (JS.or_else (Body.hospitalName b) ""))
    (generateCode env (S n)) (Some "pending") None.

(** The fields a profile update has no business with. *)
Definition same_outside_profile (d d' : Doctor.t) : Prop :=
  Doctor.email d' = Doctor.email d
  ∧ Doctor.passwordHash d' = Doctor.passwordHash d
  ∧ Doctor.doctorid d' = Doctor.doctorid d
  ∧ Doctor.status d' = Doctor.status d
  ∧ Doctor.profilePicture d' = Doctor.profilePicture d
  ∧ Doctor.gender d' = Doctor.gender d.

(** Lower-case normal form of the two searchable fields: the runtime's
    [toLowerCase] leaves them as they are. *)
Definition lowercased (env : Env) (d : Doctor.t) : Prop :=
  (∀ s, Doctor.specialization d = Some s -> toLowerCase env s = s)
  ∧ (∀ l, Doctor.location d = Some l -> toLowerCase env l = l).

(** A store with unique indexes on [email] and [doctorid], as the data
    model has them: the duplicate-key error of a document that repeats
    either. *)
Definition unique_keys_error (ds : list Doctor.t) (d : Doctor.t)
  : option JS.exn :=
  if existsb (fun d' => bool_decide (Doctor.email d' = Doctor.email d)
                        || String.eqb (Doctor.doctorid d') (Doctor.doctorid d))
       ds
  then Some (JS.Error "E11000 duplicate key error collection: doctors")
  else None.

(** The ids Mongoose casts to an ObjectId: 24 hexadecimal digits. *)
Definition is_hex (c : ascii) : bool :=
  let n := N_of_ascii c in
  (((48 <=? n) && (n <=? 57)) || ((65 <=? n) && (n <=? 70))
   || ((97 <=? n) && (n <=? 102)))%N.

Definition ObjectId_cast_error (id : string) : option JS.exn :=
  let quote := String (ascii_of_N 34) EmptyString in
  if (String.length id =? 24)%nat && forallb is_hex (list_ascii_of_string id)
  then None
  else Some (JS.Error ("Cast to ObjectId failed for value " +:+ quote +:+ id
                       +:+ quote +:+ " (type string) at path " +:+ quote
                       +:+ "_id" +:+ quote)).

(** No session object, or a session whose doctor identifier is missing or
    falsy. *)
Definition unauthenticated (w : World) : Prop :=
  session w = None
  ∨ ∃ sess, session w = Some sess ∧ JS.truthy (doctorId sess) = false.

(** The fields that say who a doctor is and whether they may log in. *)
Definition same_credentials (d d' : Doctor.t) : Prop :=
  Doctor.email d' = Doctor.email d
  ∧ Doctor.passwordHash d' = Doctor.passwordHash d
  ∧ Doctor.doctorid d' = Doctor.doctorid d
  ∧ Doctor.status d' = Doctor.status d.

(** Everything but the profile picture. *)
Definition same_outside_picture (d d' : Doctor.t) : Prop :=
  Doctor.name d' = Doctor.name d
  ∧ Doctor.email d' = Doctor.email d
  ∧ Doctor.passwordHash d' = Doctor.passwordHash d
  ∧ Doctor.phone d' = Doctor.phone d
  ∧ Doctor.gender d' = Doctor.gender d
  ∧ Doctor.specialization d' = Doctor.specialization d
  ∧ Doctor.location d' = Doctor.location d
  ∧ Doctor.hospitalName d' = Doctor.hospitalName d
  ∧ Doctor.doctorid d' = Doctor.doctorid d
  ∧ Doctor.status d' = Doctor.status d.

(** The fields of an appointment that confirming does not assign. *)
Definition same_booking (a a' : Appointment.t) : Prop :=
  Appointment.doctorid a' = Appointment.doctorid a
  ∧ Appointment.patientEmail a' = Appointment.patientEmail a
  ∧ Appointment.createdAt a' = Appointment.createdAt a.

(** The three parts of the world that outlive a request. *)
Definition same_store (w w' : World) : Prop :=
  doctors w' = doctors w
  ∧ appointments w' = appointments w
  ∧ session w' = session w.

(** [console.error] lines among events. *)
Definition is_console_error (e : Event) : bool :=
  match e with
  | console_error _ => true
  | _ => false
  end.

(** What the console and the collaborators see of the notification. *)
Definition notification_events (found : option Doctor.t)
    (outcome : result EmailResult) : list Event :=
  [console_log "Fetching doctor details for:"; call "DoctorModel.findOne";
   console_log (match found with
                | Some _ => "Doctor found:"
                | None => "No doctor found with ID:"
                end);
   console_log "Doctor details:"; call "sendAppointmentConfirmationEmail";
   match outcome with
   | Ok r =>
       if success r
       then console_log "Appointment confirmation email sent successfully to:"
       else console_error "Failed to send appointment confirmation email:"
   | Throw _ => console_error "Error in email sending process:"
   end].

(** What a request to route [r] may have changed between [w] and [w']:
    the session only on login, appointments only on confirm and never their
    ids, and of the doctors never the credentials of those already stored,
    with additions only on registration. *)
Definition router_scope (r : Route) (w w' : World) : Prop :=
  (r ≠ POST_login -> session w' = session w)
  ∧ (r ≠ POST_appointments_confirm -> appointments w' = appointments w)
  ∧ dom (appointments w') = dom (appointments w)
  ∧ ∃ ds' added,
      doctors w' = (ds' ++ added)%list
      ∧ Forall2 same_credentials (doctors w) ds'
      ∧ (added = [] ∨ r = POST_register).

(** ** Sample data used to instantiate the theorems *)

Module Sample.

Definition env : Env :=
  mkEnv (fun p _ _ => "$2a$10$" +:+ p)
        (fun p h => String.eqb ("$2a$10$" +:+ p) h)
        (fun _ => "DOC001")
        (fun _ _ => Throw (JS.Error "connect ECONNREFUSED"))
        (fun _ => "1/2/2026")
        (fun p => Ok ("https://res.cloudinary.com/" +:+ p))
        true
        JS.ascii_toLowerCase ObjectId_cast_error unique_keys_error.

Definition alice : Doctor.t :=
  Doctor.mk (Some "Alice") (Some "a@x.com") (Some "$2a$10$p") (Some "1")
    (Some "f") (Some "cardio") (Some "ny") (Some "") "D1" (Some "pending")
    None.

Definition booked : Appointment.t :=
  Appointment.mk (Some "D1") (Some "p@x.com") (Some "pending") None None None 5.

Definition later : Appointment.t :=
  Appointment.mk (Some "D1") (Some "q@x.com") (Some "confirmed")
    (Some "9am") (Some "2026-01-01") (Some "See you") 9.

Definition foreign : Appointment.t :=
  Appointment.mk (Some "D2") (Some "r@x.com") (Some "pending") None None None 7.

Definition sess : Session := mkSession (Some "D1") (Some "a@x.com").

Definition world : World :=
  mkWorld [alice]
    (<["a1" := booked]> (<["a2" := later]> (<["a3" := foreign]> ∅)))
    (Some sess) 0 [].

Definition anonymous : World :=
  mkWorld [alice] (appointments world) None 0 [].

Definition slot : Body.t :=
  Body.mk None None None None None None None None
    (Some "10am") (Some "2026-01-02") None.


Definition signup : Body.t :=
  Body.mk (Some "Bob") (Some "b@x.com") (Some "p") (Some "2") (Some "m")
    (Some "Cardio") (Some "NY") None None None None.

(** A sign-up form that leaves the specialization out. *)
Definition signup_incomplete : Body.t :=
  Body.mk (Some "Bob") (Some "b@x.com") (Some "p") (Some "2") (Some "m")
    None (Some "NY") None None None None.

Definition credentials : Body.t :=
  Body.mk None (Some "a@x.com") (Some "p") None None None None None None
    None None.

Definition edit : Body.t :=
  Body.mk (Some "Alice B") (Some "evil@x.com") (Some "zzz") (Some "3") None
    (Some "Cardio") (Some "NY") (Some "General") None None None.

End Sample.

(** A clinic with an approved doctor, for the login and picture theorems. *)
Module Clinic.

Definition env : Env :=
  mkEnv (fun p _ _ => "$2a$10$" +:+ p)
        (fun p h => String.eqb ("$2a$10$" +:+ p) h)
        (fun _ => "D3")
        (fun _ _ => Ok (mkEmailResult false (Some "mailbox full")))
        (fun _ => "1/2/2026")
        (fun p => if String.eqb p "" then Throw (JS.Error "Empty file")
                  else Ok ("https://res.cloudinary.com/" +:+ p))
        false
        JS.ascii_toLowerCase ObjectId_cast_error unique_keys_error.

Definition carol : Doctor.t :=
  Doctor.mk (Some "Carol") (Some "c@x.com") (Some "$2a$10$pw") (Some "3")
    (Some "f") (Some "derma") (Some "la") (Some "") "D3" (Some "approved")
    None.

(** A record as the entry file's POST /doctor leaves it once approved: no
    password hash. *)
Definition dave : Doctor.t :=
  Doctor.mk (Some "Dave") (Some "d@x.com") None (Some "4") (Some "m") None
    None None "D4" (Some "approved") None.

Definition visit : Appointment.t :=
  Appointment.mk (Some "D3") (Some "p@x.com") (Some "pending") None None None 5.

Definition guest : Session := mkSession None None.

Definition world : World :=
  mkWorld [Sample.alice; carol; dave] (<["v1" := visit]> ∅) (Some guest) 0 [].

Definition logged_in : World :=
  mkWorld [Sample.alice; carol; dave] (<["v1" := visit]> ∅)
    (Some (mkSession (Some "D3") (Some "c@x.com"))) 0 [].

Definition stale : World :=
  mkWorld [Sample.alice] ∅ (Some (mkSession (Some "D9") None)) 0 [].

Definition carol_login : Body.t :=
  Body.mk None (Some "c@x.com") (Some "pw") None None None None None None
    None None.

Definition carol_typo : Body.t :=
  Body.mk None (Some "c@x.com") (Some "pW") None None None None None None
    None None.

Definition stranger_login : Body.t :=
  Body.mk None (Some "nobody@x.com") (Some "pw") None None None None None None
    None None.

Definition dave_login : Body.t :=
  Body.mk None (Some "d@x.com") (Some "pw") None None None None None None
    None None.

End Clinic.

(** ** Running the monad *)

Ltac run :=
  unfold mbind, M_bind, mret, M_ret, try_catch, throw, emit, draw,
    get_doctors, put_doctors, get_appointments, put_appointments,
    get_session, put_session in *;
  cbn [fst snd doctors appointments session draws trace] in *.

Ltac open_world w :=
  let ds := fresh "ds" in
  let ap := fresh "ap" in
  let s := fresh "s" in
  let n := fresh "n" in
  let t := fresh "t" in
  destruct w as [ds ap s n t];
  cbn [doctors appointments session draws trace] in *.

Section Store.

Lemma doctor_by_email_Some ds e d :
  doctor_by_email ds e = Some d -> d ∈ ds ∧ Doctor.email d = e.
Proof.
  unfold doctor_by_email. intros H. apply find_some in H as [Hin Hb].
  split; [by apply list_elem_of_In | by apply bool_decide_eq_true in Hb].
Qed.

Lemma doctor_by_email_exists ds e d :
  d ∈ ds -> Doctor.email d = e -> is_Some (doctor_by_email ds e).
Proof.
  unfold doctor_by_email. intros Hin He.
  destruct (find _ ds) eqn:Hf; [by eexists |].
  exfalso. apply list_elem_of_In in Hin.
  pose proof (find_none _ _ Hf _ Hin) as Hb. cbn in Hb.
  by apply bool_decide_eq_false in Hb.
Qed.

Lemma doctor_by_email_None ds e :
  (∀ d, d ∈ ds -> Doctor.email d ≠ e) -> doctor_by_email ds e = None.
Proof.
  intros H. destruct (doctor_by_email ds e) eqn:Hf; [| done].
  apply doctor_by_email_Some in Hf as [Hin He]. by destruct (H _ Hin).
Qed.

End Store.

(** ** Confirming an appointment *)

Section Confirm.

Context (env : Env).




Lemma confirm_run_missing req w sess :
  doctor_session w sess ->
  (appointments w !! params_appointmentId req = None
   ∧ cast_id_error env (params_appointmentId req) = None
   ∨ ∃ a, appointments w !! params_appointmentId req = Some a
          ∧ Appointment.doctorid a ≠ doctorId sess) ->
  confirm env req w =
    (Ok (Json 404 (Message false "Appointment not found")),
     mkWorld (doctors w) (appointments w) (session w) (draws w)
       (trace w ++ [console_log "The doctor is in appoints route ";
                    console_log "Confirming appointment:";
                    call "appointment.findOne"])).
Proof.
  intros [Hs Ht] H.
  unfold confirm, isDoctorLoggedIn, session_doctorId, appointment_findOne. run.
  rewrite Hs, Ht. run. rewrite Hs. run.
  rewrite <- Hs, <- !app_assoc. cbn [app].
  destruct H as [[-> ->] | (a & -> & Hne)]; run; [done |].
  by rewrite bool_decide_eq_false_2.
Qed.

Lemma confirm_run_malformed req w sess e :
  doctor_session w sess ->
  appointments w !! params_appointmentId req = None ->
  cast_id_error env (params_appointmentId req) = Some e ->
  confirm env req w =
    (Ok (Json 500
           (Message false ("Error confirming appointment: " +:+ JS.message e))),
     mkWorld (doctors w) (appointments w) (session w) (draws w)
       (trace w ++ [console_log "The doctor is in appoints route ";
                    console_log "Confirming appointment:";
                    call "appointment.findOne";
                    console_error "Appointment confirmation error:"])).
Proof.
  intros [Hs Ht] Hl Hc.
  unfold confirm, isDoctorLoggedIn, session_doctorId, appointment_findOne. run.
  rewrite Hs, Ht. run. rewrite Hs. run.
  rewrite <- Hs, <- !app_assoc. cbn [app].
  rewrite Hl, Hc. run. by rewrite <- !app_assoc.
Qed.

End Confirm.








(** ** Login *)

Section Login.

Context (env : Env).

Lemma login_run_unapproved req w d :
  doctor_by_email (doctors w) (Body.email (body req)) = Some d ->
  Doctor.status d ≠ Some "approved" ->
  login env req w =
    (Ok (Json 403
           (Message false
              "Your account is pending approval. Please wait for admin approval.")),
     mkWorld (doctors w) (appointments w) (session w) (draws w)
       (trace w ++ [call "DoctorModel.findOne"])).
Proof.
  intros Hd Hst. unfold login, DoctorModel_findOne_email. run.
  rewrite Hd. by rewrite bool_decide_eq_false_2.
Qed.

(** Whatever the request, the session after it is the session before it,
    unless the login succeeded. *)
Lemma login_session_only_on_success req w :
  session (login env req w).2 = session w
  ∨ ∃ d, doctor_by_email (doctors w) (Body.email (body req)) = Some d
         ∧ Doctor.status d = Some "approved"
         ∧ (login env req w).1
           = Ok (Json 200
                   (LoggedIn "Login successful" (Doctor.doctorid d)
                      "/doctor/dashboard"))
         ∧ session (login env req w).2
           = Some (mkSession (Some (Doctor.doctorid d)) (Doctor.email d)).
Proof.
  unfold login, DoctorModel_findOne_email, bcrypt_compare_call, session_set.
  run.
  destruct (doctor_by_email _ _) as [d |] eqn:Hd; [| by left].
  destruct (bool_decide (Doctor.status d = Some "approved")) eqn:Hst;
    cbn [negb]; [| by left].
  apply bool_decide_eq_true in Hst.
  destruct (Body.password (body req)) as [p |]; [| by left].
  destruct (Doctor.passwordHash d) as [h |]; [| by left].
  run. destruct (bcrypt_compare env p h); cbn [negb]; [| by left].
  destruct (session w) eqn:Hs; run; [| by left].
  right. exists d. done.
Qed.

End Login.

(** C3. When the doctor record found for a login request has a status other
    than "approved", the answer is 403 and the session is left as it was,
    for every password and every outcome of the hash comparison; the only
    collaborator call made is the lookup, so the status is checked before
    any password comparison.  For every login request whatsoever, a session
    that differs afterwards belongs to a successful login of an approved
    doctor. *)
Theorem login_requires_approval env req w d :
  doctor_by_email (doctors w) (Body.email (body req)) = Some d ->
  Doctor.status d ≠ Some "approved" ->
  let out := login env req w in
  out.1 = Ok (Json 403
                (Message false
                   "Your account is pending approval. Please wait for admin approval."))
  ∧ session out.2 = session w
  ∧ events_of w out.2 = [call "DoctorModel.findOne"]
  ∧ (call "bcrypt.compare" ∉ events_of w out.2)
  ∧ ∀ req' w',
      session (login env req' w').2 ≠ session w' ->
      ∃ d', Doctor.status d' = Some "approved"
            ∧ (login env req' w').1
              = Ok (Json 200
                      (LoggedIn "Login successful" (Doctor.doctorid d')
                         "/doctor/dashboard"))
            ∧ session (login env req' w').2
              = Some (mkSession (Some (Doctor.doctorid d')) (Doctor.email d')).
Proof.
  intros Hd Hst out. subst out. rewrite (login_run_unapproved env req w d Hd Hst).
  unfold events_of. cbn [fst snd session trace]. rewrite drop_app_length.
  repeat split.
  - intros Hin. apply list_elem_of_singleton in Hin. discriminate.
  - intros req' w' Hne.
    destruct (login_session_only_on_success env req' w')
      as [Heq | (d' & _ & H1 & H2 & H3)]; [done | eauto].
Qed.

Lemma login_requires_approval_witness :
  let out := login Sample.env (mkRequest "" Sample.credentials None)
               (mkWorld [Sample.alice] ∅ (Some (mkSession None None)) 0 []) in
  bcrypt_compare Sample.env "p" "$2a$10$p" = true
  ∧ status_code (default (Redirect "") (response_of out)) = 403%N
  ∧ session out.2 = Some (mkSession None None).
Proof.
  intros out.
  destruct (login_requires_approval Sample.env
              (mkRequest "" Sample.credentials None)
              (mkWorld [Sample.alice] ∅ (Some (mkSession None None)) 0 [])
              Sample.alice) as (H1 & H2 & _).
  - reflexivity.
  - discriminate.
  - split; [reflexivity |]. subst out. unfold response_of. rewrite H1, H2.
    split; reflexivity.
Defined.

(** ** Registration *)

Section Register.

Context (env : Env).

Lemma register_run_exists req w d :
  doctor_by_email (doctors w) (Body.email (body req)) = Some d ->
  register env req w =
    (Ok (Json 400 (Message false "Doctor with this email already exists")),
     mkWorld (doctors w) (appointments w) (session w) (draws w)
       (trace w ++ [call "DoctorModel.findOne"])).
Proof.
  intros Hd. unfold register, DoctorModel_findOne_email. run. by rewrite Hd.
Qed.

Lemma register_run_fresh req w p s l :
  doctor_by_email (doctors w) (Body.email (body req)) = None ->
  Body.password (body req) = Some p ->
  Body.specialization (body req) = Some s ->
  Body.location (body req) = Some l ->
  create_error env (doctors w) (registered_doctor env (body req) p s l (draws w))
  = None ->
  register env req w =
    (Ok (Json 201
           (Registered
              "Doctor registered successfully! Please wait for admin approval."
              (generateCode env (S (draws w))))),
     mkWorld (doctors w ++ [registered_doctor env (body req) p s l (draws w)])
       (appointments w) (session w) (S (S (draws w)))
       (trace w ++ [call "DoctorModel.findOne"; call "bcrypt.hash";
                    call "generateCode"; call "DoctorModel.create"])).
Proof.
  intros Hd Hp Hs Hl Hc.
  unfold register, DoctorModel_findOne_email, bcrypt_hash_call,
    generateCode_call, toLowerCase_field, DoctorModel_create. run.
  rewrite Hd, Hp. run. rewrite Hs, Hl. run.
  unfold registered_doctor in Hc. rewrite Hc. run.
  by rewrite <- !app_assoc.
Qed.

Lemma register_run_rejected req w p s l e :
  doctor_by_email (doctors w) (Body.email (body req)) = None ->
  Body.password (body req) = Some p ->
  Body.specialization (body req) = Some s ->
  Body.location (body req) = Some l ->
  create_error env (doctors w) (registered_doctor env (body req) p s l (draws w))
  = Some e ->
  register env req w =
    (Ok (Json 500
           (Message false ("Error registering doctor: " +:+ JS.message e))),
     mkWorld (doctors w) (appointments w) (session w) (S (S (draws w)))
       (trace w ++ [call "DoctorModel.findOne"; call "bcrypt.hash";
                    call "generateCode"; call "DoctorModel.create";
                    console_error "Doctor registration error:"])).
Proof.
  intros Hd Hp Hs Hl Hc.
  unfold register, DoctorModel_findOne_email, bcrypt_hash_call,
    generateCode_call, toLowerCase_field, DoctorModel_create. run.
  rewrite Hd, Hp. run. rewrite Hs, Hl. run.
  unfold registered_doctor in Hc. rewrite Hc. run.
  by rewrite <- !app_assoc.
Qed.

Lemma register_run_incomplete req w :
  doctor_by_email (doctors w) (Body.email (body req)) = None ->
  Body.password (body req) = None
  ∨ Body.specialization (body req) = None
  ∨ Body.location (body req) = None ->
  ∃ msg n t,
    register env req w =
      (Ok (Json 500 (Message false ("Error registering doctor: " +:+ msg))),
       mkWorld (doctors w) (appointments w) (session w) n t).
Proof.
  intros Hd H.
  unfold register, DoctorModel_findOne_email, bcrypt_hash_call,
    generateCode_call, toLowerCase_field, DoctorModel_create. run.
  rewrite Hd.
  destruct (Body.password (body req)) as [p |]; run; [| by eauto].
  destruct (Body.specialization (body req)) as [s |]; run; [| by eauto].
  destruct (Body.location (body req)) as [l |]; run; [| by eauto].
  by destruct H as [? | [? | ?]].
Qed.

End Register.

(** C4, counterexample.  A request whose email is not in the collection but
    whose form lacks the specialization is answered 500 and not 201, so
    "otherwise ... returns 201" does not hold for every request. *)
Lemma register_incomplete_form_counterexample :
  ¬ (∀ env req w e,
       Body.email (body req) = Some e ->
       (∀ d, d ∈ doctors w -> Doctor.email d ≠ Some e) ->
       ∃ id d,
         (register env req w).1
         = Ok (Json 201
                 (Registered
                    "Doctor registered successfully! Please wait for admin approval."
                    id))
         ∧ doctors (register env req w).2 = (doctors w ++ [d])%list
         ∧ Doctor.status d = Some "pending").
Proof.
  intros H.
  destruct (H Sample.env (mkRequest "" Sample.signup_incomplete None)
              Sample.world "b@x.com") as (id & d & H1 & _).
  - reflexivity.
  - intros d' Hin. apply list_elem_of_singleton in Hin. subst d'. discriminate.
  - vm_compute in H1. discriminate.
Qed.

(** C4, as amended.  When a doctor with the request's email is in the
    collection the answer is 400 "Doctor with this email already exists" and
    the collection is unchanged.  Otherwise, for a body whose fields are
    strings or absent: when password, specialization and location are
    present and the store accepts the new document, the password is hashed,
    an identifier generated, exactly one doctor with status "pending"
    appended and 201 returned with that identifier; when the store rejects
    the document, or one of the three fields is missing, the answer is 500
    and the collection is unchanged. *)
Theorem register_conflict_or_created env req w :
  let b := body req in
  let out := register env req w in
  ((∃ d, d ∈ doctors w ∧ Doctor.email d = Body.email b) ->
   out.1 = Ok (Json 400 (Message false "Doctor with this email already exists"))
   ∧ doctors out.2 = doctors w)
  ∧ ((∀ d, d ∈ doctors w -> Doctor.email d ≠ Body.email b) ->
     (∀ p s l,
        Body.password b = Some p ->
        Body.specialization b = Some s ->
        Body.location b = Some l ->
        let d := registered_doctor env b p s l (draws w) in
        Doctor.passwordHash d = Some (bcrypt_hash env p 10 (draws w))
        ∧ Doctor.doctorid d = generateCode env (S (draws w))
        ∧ Doctor.status d = Some "pending"
        ∧ (create_error env (doctors w) d = None ->
           out.1 = Ok (Json 201
                         (Registered
                            "Doctor registered successfully! Please wait for admin approval."
                            (generateCode env (S (draws w)))))
           ∧ doctors out.2 = (doctors w ++ [d])%list)
        ∧ (∀ e, create_error env (doctors w) d = Some e ->
                out.1 = Ok (Json 500
                              (Message false
                                 ("Error registering doctor: "
                                  +:+ JS.message e)))
                ∧ doctors out.2 = doctors w))
     ∧ (Body.password b = None ∨ Body.specialization b = None
        ∨ Body.location b = None ->
        status_code (default (Redirect "") (response_of out)) = 500%N
        ∧ doctors out.2 = doctors w)).
Proof.
  intros b out. split.
  - intros (d & Hin & Hd).
    destruct (doctor_by_email_exists (doctors w) (Body.email b) d Hin Hd)
      as [d' Hd'].
    subst out. by rewrite (register_run_exists env req w d' Hd').
  - intros Hfresh.
    assert (doctor_by_email (doctors w) (Body.email b) = None) as Hnone
      by (by apply doctor_by_email_None).
    split.
    + intros p s l Hp Hs Hl d.
      split; [done |]. split; [done |]. split; [done |]. split.
      * intros Hc. subst out.
        by rewrite (register_run_fresh env req w p s l Hnone Hp Hs Hl Hc).
      * intros e Hc. subst out.
        by rewrite (register_run_rejected env req w p s l e Hnone Hp Hs Hl Hc).
    + intros Hmiss. subst out.
      destruct (register_run_incomplete env req w Hnone Hmiss)
        as (msg & n & t & ->).
      done.
Qed.

Lemma register_conflict_or_created_witness :
  (register Sample.env (mkRequest "" Sample.signup None) Sample.world).1
  = Ok (Json 201
          (Registered
             "Doctor registered successfully! Please wait for admin approval."
             "DOC001"))
  ∧ (register Sample.env (mkRequest "" Sample.credentials None) Sample.world).1
    = Ok (Json 400 (Message false "Doctor with this email already exists"))
  ∧ status_code
      (default (Redirect "")
         (response_of
            (register Sample.env (mkRequest "" Sample.signup_incomplete None)
               Sample.world))) = 500%N.
Proof.
  split; [| split].
  - destruct (register_conflict_or_created Sample.env
                (mkRequest "" Sample.signup None) Sample.world) as [_ H].
    destruct H as [H _].
    + intros d Hin. apply list_elem_of_singleton in Hin. subst d. discriminate.
    + destruct (H "p" "Cardio" "NY") as (_ & _ & _ & H1 & _);
        [reflexivity | reflexivity | reflexivity |].
      destruct H1 as [H1 _]; [reflexivity | exact H1].
  - destruct (register_conflict_or_created Sample.env
                (mkRequest "" Sample.credentials None) Sample.world) as [H _].
    destruct H as [H1 _]; [| exact H1].
    exists Sample.alice. split; [apply list_elem_of_singleton; reflexivity |].
    reflexivity.
  - destruct (register_conflict_or_created Sample.env
                (mkRequest "" Sample.signup_incomplete None) Sample.world)
      as [_ H].
    destruct H as [_ H].
    + intros d Hin. apply list_elem_of_singleton in Hin. subst d. discriminate.
    + destruct H as [H1 _]; [right; left; reflexivity | exact H1].
Defined.

(** ** Profile update *)

Section UpdateFirst.

Context {A : Type} (p : A -> bool) (f : A -> A).

Lemma update_first_snd l : (update_first p f l).2 = f <$> find p l.
Proof.
  induction l as [| x r IH]; [done |]. cbn.
  destruct (p x); [done |].
  destruct (update_first p f r) as [r' o]. exact IH.
Qed.

Lemma update_first_Forall2 (R : A -> A -> Prop) l :
  (∀ x, R x x) -> (∀ x, R x (f x)) -> Forall2 R l (update_first p f l).1.
Proof.
  intros Hrefl Hf. induction l as [| x r IH]; [constructor |]. cbn.
  destruct (p x).
  - constructor; [apply Hf | by apply Forall_Forall2_diag, Forall_true].
  - destruct (update_first p f r) as [r' o]. by constructor.
Qed.

Lemma update_first_find l :
  (∀ x, p (f x) = p x) -> find p (update_first p f l).1 = f <$> find p l.
Proof.
  intros Hp. induction l as [| x r IH]; [done |]. cbn.
  destruct (p x) eqn:Hx.
  - cbn. by rewrite Hp, Hx.
  - destruct (update_first p f r) as [r' o]. cbn. by rewrite Hx.
Qed.

End UpdateFirst.

Section ProfileUpdate.

Context (env : Env).

Lemma profile_update_run req w sess :
  doctor_session w sess ->
  let r := update_first
             (fun d => bool_decide (Some (Doctor.doctorid d) = doctorId sess))
             (profile_fields env (body req)) (doctors w) in
  profile_update env req w =
    (Ok (Json 200
           (ProfileUpdated "Profile updated successfully"
              (select_minus_passwordHash <$> r.2))),
     mkWorld r.1 (appointments w) (session w) (draws w)
       (trace w ++ [call "DoctorModel.findOneAndUpdate"])).
Proof.
  intros [Hs Ht] r.
  unfold profile_update, isDoctorLoggedIn, session_doctorId,
    DoctorModel_findOneAndUpdate_doctorid. run.
  rewrite Hs, Ht. run. rewrite Hs. run. fold r.
  destruct r as [ds' o]. run. by rewrite Hs.
Qed.

Lemma profile_fields_frame b d : same_outside_profile d (profile_fields env b d).
Proof. by repeat split. Qed.

(** The stored document after an update of a doctor that exists. *)
Lemma profile_update_stored req w sess d :
  doctor_session w sess ->
  doctor_by_id (doctors w) (doctorId sess) = Some d ->
  doctor_by_id (doctors (profile_update env req w).2) (doctorId sess)
  = Some (profile_fields env (body req) d).
Proof.
  intros Hsess Hd. rewrite (profile_update_run req w sess Hsess).
  cbn [snd doctors]. unfold doctor_by_id in *.
  rewrite update_first_find; [by rewrite Hd | done].
Qed.

End ProfileUpdate.

(** C6. A profile-update request by a doctor session leaves, in every stored
    doctor, the email, password hash, doctor identifier, approval status,
    profile picture and gender as they were, so that only name, phone,
    specialization, location and hospital name may change; it keeps the
    number of doctors, the appointments and the session, and returns the
    updated record (if the doctor exists) without the password hash. *)
Theorem profile_update_frame env req w sess :
  doctor_session w sess ->
  let out := profile_update env req w in
  (∃ o, out.1 = Ok (Json 200 (ProfileUpdated "Profile updated successfully" o))
        ∧ o = select_minus_passwordHash
                <$> (profile_fields env (body req)
                       <$> doctor_by_id (doctors w) (doctorId sess))
        ∧ ∀ d, o = Some d -> Doctor.passwordHash d = None)
  ∧ Forall2 same_outside_profile (doctors w) (doctors out.2)
  ∧ List.length (doctors out.2) = List.length (doctors w)
  ∧ appointments out.2 = appointments w
  ∧ session out.2 = session w.
Proof.
  intros Hsess out. subst out. rewrite (profile_update_run env req w sess Hsess).
  cbn [fst snd doctors appointments session].
  assert (Forall2 same_outside_profile (doctors w)
            (update_first
               (fun d => bool_decide (Some (Doctor.doctorid d) = doctorId sess))
               (profile_fields env (body req)) (doctors w)).1) as HF.
  { apply update_first_Forall2; [by repeat split |].
    apply profile_fields_frame. }
  repeat split; try done.
  - eexists. split; [reflexivity |]. rewrite update_first_snd.
    split; [done |]. intros d Hd.
    destruct (find _ _) as [d0 |]; [| discriminate].
    cbn in Hd. by injection Hd as <-.
  - symmetry. by eapply Forall2_length.
Qed.

Lemma profile_update_frame_witness :
  let out := profile_update Sample.env (mkRequest "" Sample.edit None)
               Sample.world in
  Forall2 same_outside_profile [Sample.alice] (doctors out.2)
  ∧ doctor_by_id (doctors out.2) (Some "D1")
    = Some (Doctor.mk (Some "Alice B") (Some "a@x.com") (Some "$2a$10$p")
              (Some "3") (Some "f") (Some "Cardio") (Some "NY")
              (Some "General") "D1" (Some "pending") None).
Proof.
  intros out.
  destruct (profile_update_frame Sample.env (mkRequest "" Sample.edit None)
              Sample.world Sample.sess) as (_ & H & _).
  - split; reflexivity.
  - split; [exact H | reflexivity].
Defined.

(** C10. Registration stores the lower-cased specialization and location
    (what the runtime's [toLowerCase] returns); a profile update stores the
    submitted specialization and location as they are; so, as soon as
    [toLowerCase] changes some string at all, a collection whose doctors
    are all lower-cased need not stay so after a profile update. *)
Theorem lowercase_not_preserved env s0 :
  toLowerCase env s0 ≠ s0 ->
  (∀ req w p s l,
     doctor_by_email (doctors w) (Body.email (body req)) = None ->
     Body.password (body req) = Some p ->
     Body.specialization (body req) = Some s ->
     Body.location (body req) = Some l ->
     create_error env (doctors w)
       (registered_doctor env (body req) p s l (draws w)) = None ->
     ∃ d, doctors (register env req w).2 = (doctors w ++ [d])%list
          ∧ Doctor.specialization d = Some (toLowerCase env s)
          ∧ Doctor.location d = Some (toLowerCase env l))
  ∧ (∀ req w sess d s l,
       doctor_session w sess ->
       doctor_by_id (doctors w) (doctorId sess) = Some d ->
       Body.specialization (body req) = Some s ->
       Body.location (body req) = Some l ->
       ∃ d', doctor_by_id (doctors (profile_update env req w).2) (doctorId sess)
             = Some d'
             ∧ Doctor.specialization d' = Some s
             ∧ Doctor.location d' = Some l)
  ∧ ∃ req w,
      Forall (lowercased env) (doctors w)
      ∧ ¬ Forall (lowercased env) (doctors (profile_update env req w).2).
Proof.
  intros Hs0. split; [| split].
  - intros req w p s l Hd Hp Hs Hl Hc.
    rewrite (register_run_fresh env req w p s l Hd Hp Hs Hl Hc).
    cbn [snd doctors]. by eexists.
  - intros req w sess d s l Hsess Hd Hs Hl.
    rewrite (profile_update_stored env req w sess d Hsess Hd).
    eexists. split; [reflexivity |].
    unfold profile_fields. cbn. by rewrite Hs, Hl.
  - exists (mkRequest ""
              (Body.mk None None None None None (Some s0) None None None None
                 None) None),
           (mkWorld [Doctor.mk None None None None None None None None "D1"
                       None None]
              ∅ (Some Sample.sess) 0 []).
    split.
    + repeat constructor; by intros s.
    + assert (doctor_session
                (mkWorld [Doctor.mk None None None None None None None None
                            "D1" None None] ∅ (Some Sample.sess) 0 [])
                Sample.sess) as Hsess by (split; reflexivity).
      rewrite (profile_update_run env _ _ _ Hsess). cbn.
      intros H. apply Forall_cons in H as [[H _] _].
      by specialize (H s0 eq_refl).
Qed.

Lemma lowercase_not_preserved_witness :
  (∃ d, doctors (register Sample.env (mkRequest "" Sample.signup None)
                   Sample.world).2 = [Sample.alice; d]
        ∧ Doctor.specialization d = Some "cardio"
        ∧ Doctor.location d = Some "ny")
  ∧ ∃ d', doctor_by_id
            (doctors (profile_update Sample.env
                        (mkRequest "" Sample.edit None) Sample.world).2)
            (Some "D1") = Some d'
          ∧ Doctor.specialization d' = Some "Cardio"
          ∧ Doctor.location d' = Some "NY".
Proof.
  destruct (lowercase_not_preserved Sample.env "Cardio") as (H1 & H2 & _);
    [discriminate |].
  split.
  - apply (H1 (mkRequest "" Sample.signup None) Sample.world "p" "Cardio" "NY");
      reflexivity.
  - apply (H2 (mkRequest "" Sample.edit None) Sample.world Sample.sess
             Sample.alice "Cardio" "NY"); try reflexivity.
    split; reflexivity.
Defined.

(** ** The session gate *)

Lemma isDoctorLoggedIn_blocks next w :
  unauthenticated w ->
  isDoctorLoggedIn next w = (Ok (Redirect "/doctorLogin"), w).
Proof.
  intros H. unfold isDoctorLoggedIn. run.
  by destruct H as [-> | (sess & -> & ->)].
Qed.

(** C5, counterexample.  GET /appointments, a JSON route, answers a request
    without a session with the 302 redirect to the login page and not with
    401 or 403. *)
Lemma unauthenticated_api_counterexample :
  ¬ (∀ env r req w,
       protected r = true -> json_api r = true -> unauthenticated w ->
       ∃ resp, (doctorRouter env r req w).1 = Ok resp
               ∧ is_redirect resp = false
               ∧ (status_code resp = 401%N ∨ status_code resp = 403%N)).
Proof.
  intros H.
  destruct (H Sample.env GET_appointments (mkRequest "" Body.empty None)
              Sample.anonymous) as (resp & H1 & H2 & _);
    [reflexivity | reflexivity | by left |].
  vm_compute in H1. injection H1 as <-. discriminate.
Qed.

(** C5, as amended.  Every route registered with the gate, page route or
    JSON route alike, answers a request with no session or no doctor
    identifier in the session by the redirect to /doctorLogin, and the
    handler behind the gate does not run: the world is unchanged. *)
Theorem unauthenticated_redirects_to_login env r req w :
  protected r = true ->
  unauthenticated w ->
  doctorRouter env r req w = (Ok (Redirect "/doctorLogin"), w)
  ∧ status_code (Redirect "/doctorLogin") = 302%N.
Proof.
  intros Hp Hu. split; [| done].
  destruct r; try discriminate; cbn [doctorRouter];
    by apply isDoctorLoggedIn_blocks.
Qed.

Lemma unauthenticated_redirects_to_login_witness :
  doctorRouter Sample.env POST_appointments_confirm
    (mkRequest "a1" Sample.slot None) Sample.anonymous
  = (Ok (Redirect "/doctorLogin"), Sample.anonymous)
  ∧ doctorRouter Sample.env GET_dashboard (mkRequest "" Body.empty None)
      Sample.anonymous
    = (Ok (Redirect "/doctorLogin"), Sample.anonymous).
Proof.
  split.
  - apply (unauthenticated_redirects_to_login Sample.env
             POST_appointments_confirm); [reflexivity | by left].
  - apply (unauthenticated_redirects_to_login Sample.env GET_dashboard);
      [reflexivity | by left].
Defined.

(** ** Admin login *)

Lemma admin_login_run email password w :
  admin_login email password w =
    (Ok (if JS.loose_eq_string email "admin@gmail.com"
            && JS.loose_eq_string password "asdf"
         then CookieRedirect "admin" (JSON_stringify email password) "/adminPage"
         else Json 200 (AdminInvalid 400 "Invalid Email!")),
     mkWorld (doctors w) (appointments w) (session w) (draws w)
       (trace w ++ [console_log "The admin details are"; call "admin.find";
                    console_log "response"])).
Proof.
  unfold admin_login. run. rewrite <- !app_assoc.
  by destruct (_ && _).
Qed.

(** On string inputs the comparison is exact: the cookie is granted for the
    stored pair only, every other pair of strings gets the invalid-credential
    body. *)
Lemma admin_login_strings e p w :
  (e = "admin@gmail.com" ∧ p = "asdf"
   ∧ (admin_login (JS.Str e) (JS.Str p) w).1
     = Ok (CookieRedirect "admin" (JSON_stringify (JS.Str e) (JS.Str p))
             "/adminPage"))
  ∨ ((e ≠ "admin@gmail.com" ∨ p ≠ "asdf")
     ∧ (admin_login (JS.Str e) (JS.Str p) w).1
       = Ok (Json 200 (AdminInvalid 400 "Invalid Email!"))).
Proof.
  rewrite admin_login_run. cbn [fst JS.loose_eq_string].
  destruct (String.eqb_spec e "admin@gmail.com") as [-> | He];
    destruct (String.eqb_spec p "asdf") as [-> | Hp]; cbn [andb]; auto.
Qed.

(** C7.  The comparison in POST /admin is [==], which converts an array to
    the comma-joined text of its elements: a body whose email is the
    one-element array holding the stored address is granted the admin cookie
    and the redirect although it is not the stored pair; under [===] the
    same body would be refused. *)
Theorem admin_login_accepts_array w :
  let email := JS.Arr [JS.Str "admin@gmail.com"] in
  let password := JS.Str "asdf" in
  email ≠ JS.Str "admin@gmail.com"
  ∧ (admin_login email password w).1
    = Ok (CookieRedirect "admin" (JSON_stringify email password) "/adminPage")
  ∧ sets_cookie (CookieRedirect "admin" (JSON_stringify email password)
                   "/adminPage") = true
  ∧ JS.strict_eq_string email "admin@gmail.com" = false.
Proof. intros email password. rewrite admin_login_run. by repeat split. Qed.

(** ** Listing appointments *)

#[global] Instance newest_first_total : Total newest_first.
Proof. intros a b. unfold newest_first. lia. Qed.

#[global] Instance newest_first_trans : Transitive newest_first.
Proof. intros a b c. unfold newest_first. lia. Qed.

Lemma elem_of_appointments_of m i a :
  a ∈ appointments_of m i
  ↔ ∃ id, m !! id = Some a ∧ Appointment.doctorid a = i.
Proof.
  unfold appointments_of. rewrite list_elem_of_filter, list_elem_of_fmap.
  split.
  - intros (Hi & [id a'] & -> & Hin). apply elem_of_map_to_list in Hin. eauto.
  - intros (id & Hm & Hi). split; [done |].
    exists (id, a). split; [done |]. by apply elem_of_map_to_list.
Qed.

Lemma get_appointments_route_run req w sess :
  doctor_session w sess ->
  get_appointments_route req w =
    (Ok (Json 200
           (AppointmentList
              (merge_sort newest_first
                 (appointments_of (appointments w) (doctorId sess))))),
     mkWorld (doctors w) (appointments w) (session w) (draws w)
       (trace w ++ [call "appointment.find"])).
Proof.
  intros [Hs Ht]. destruct w as [ds ap s n t]. cbn in Hs. subst s.
  unfold get_appointments_route, isDoctorLoggedIn, session_doctorId,
    appointment_find_sorted. run.
  rewrite Ht. by run.
Qed.

Lemma dashboard_run req w sess d :
  doctor_session w sess ->
  doctor_by_id (doctors w) (doctorId sess) = Some d ->
  (dashboard req w).1 =
    Ok (Render "doctorDashboard" d
          (merge_sort newest_first
             (appointments_of (appointments w) (doctorId sess)))).
Proof.
  intros [Hs Ht] Hd. destruct w as [ds ap s n t].
  cbn [session doctors] in Hs, Hd. subst s.
  unfold dashboard, isDoctorLoggedIn, session_doctorId,
    DoctorModel_findOne_doctorid, appointment_find_sorted. run.
  rewrite Ht. run. by rewrite Hd.
Qed.

(** C8. For a doctor session, GET /appointments returns a list that is a
    rearrangement of exactly the stored appointments whose doctor identifier
    is the session's, in descending order of creation time; every listed
    appointment is that doctor's and every appointment of that doctor is
    listed.  The dashboard of an existing doctor renders the same list. *)
Theorem appointments_listing req w sess :
  doctor_session w sess ->
  ∃ l,
    (get_appointments_route req w).1 = Ok (Json 200 (AppointmentList l))
    ∧ l ≡ₚ appointments_of (appointments w) (doctorId sess)
    ∧ StronglySorted newest_first l
    ∧ Forall (fun a => Appointment.doctorid a = doctorId sess) l
    ∧ (∀ a, a ∈ l ↔ ∃ id, appointments w !! id = Some a
                          ∧ Appointment.doctorid a = doctorId sess)
    ∧ ∀ d, doctor_by_id (doctors w) (doctorId sess) = Some d ->
           (dashboard req w).1 = Ok (Render "doctorDashboard" d l).
Proof.
  intros Hsess.
  exists (merge_sort newest_first
            (appointments_of (appointments w) (doctorId sess))).
  rewrite (get_appointments_route_run req w sess Hsess). cbn [fst].
  assert (∀ a, a ∈ merge_sort newest_first
                     (appointments_of (appointments w) (doctorId sess))
               ↔ ∃ id, appointments w !! id = Some a
                       ∧ Appointment.doctorid a = doctorId sess) as Hmem.
  { intros a. rewrite merge_sort_Permutation. apply elem_of_appointments_of. }
  split; [done |]. split; [apply merge_sort_Permutation |].
  split; [apply StronglySorted_merge_sort; apply _ |].
  split; [| split; [exact Hmem |]].
  - apply Forall_forall. intros a Ha. apply Hmem in Ha as (id & _ & Hi). done.
  - intros d Hd. by apply dashboard_run.
Qed.

Lemma appointments_listing_witness :
  ∃ l, (get_appointments_route (mkRequest "" Body.empty None) Sample.world).1
       = Ok (Json 200 (AppointmentList l))
       ∧ l = [Sample.later; Sample.booked]
       ∧ StronglySorted newest_first l.
Proof.
  destruct (appointments_listing (mkRequest "" Body.empty None) Sample.world
              Sample.sess) as (l & H1 & H2 & H3 & _).
  - split; reflexivity.
  - exists l. split; [exact H1 |]. split; [| exact H3].
    vm_compute in H1. by injection H1 as <-.
Defined.

(** ** Further properties of the login handler *)

(** X1. An approved doctor who presents the password that bcrypt accepts
    against the stored hash is answered 200 with the doctor identifier and
    the dashboard URL; the session then holds that identifier and the stored
    email, nothing in the store is written, and (the identifier being a
    non-empty string) the session passes the gate of the protected routes. *)
Theorem login_success env req w sess d p h :
  session w = Some sess ->
  doctor_by_email (doctors w) (Body.email (body req)) = Some d ->
  Doctor.status d = Some "approved" ->
  Body.password (body req) = Some p ->
  Doctor.passwordHash d = Some h ->
  bcrypt_compare env p h = true ->
  let out := login env req w in
  let sess' := mkSession (Some (Doctor.doctorid d)) (Doctor.email d) in
  out.1 = Ok (Json 200
                (LoggedIn "Login successful" (Doctor.doctorid d)
                   "/doctor/dashboard"))
  ∧ session out.2 = Some sess'
  ∧ doctors out.2 = doctors w
  ∧ appointments out.2 = appointments w
  ∧ (Doctor.doctorid d ≠ "" -> doctor_session out.2 sess').
Proof.
  intros Hs Hd Hst Hp Hh Hc out sess'. subst out. open_world w. subst s.
  unfold login, DoctorModel_findOne_email, bcrypt_compare_call, session_set.
  run. rewrite Hd, Hst, Hp, Hh. rewrite bool_decide_eq_true_2 by done.
  run. rewrite Hc. run. repeat split.
  cbn. destruct (String.eqb_spec (Doctor.doctorid d) ""); [done | reflexivity].
Qed.

Lemma login_success_witness :
  let out := login Clinic.env (mkRequest "" Clinic.carol_login None)
               Clinic.world in
  out.1 = Ok (Json 200 (LoggedIn "Login successful" "D3" "/doctor/dashboard"))
  ∧ session out.2 = Some (mkSession (Some "D3") (Some "c@x.com")).
Proof.
  intros out.
  destruct (login_success Clinic.env (mkRequest "" Clinic.carol_login None)
              Clinic.world Clinic.guest Clinic.carol "pw" "$2a$10$pw")
    as (H1 & H2 & _); try reflexivity.
  split; [exact H1 | exact H2].
Defined.

(** X2. An email that matches no doctor and a wrong password for an approved
    doctor get the very same answer, 401 "Invalid email or password", and
    leave session and store as they were: the response does not tell which
    of the two was wrong. *)
Theorem login_failure_uniform env req w :
  (doctor_by_email (doctors w) (Body.email (body req)) = None
   ∨ ∃ d p h,
       doctor_by_email (doctors w) (Body.email (body req)) = Some d
       ∧ Doctor.status d = Some "approved"
       ∧ Body.password (body req) = Some p
       ∧ Doctor.passwordHash d = Some h
       ∧ bcrypt_compare env p h = false) ->
  let out := login env req w in
  out.1 = Ok (Json 401 (Message false "Invalid email or password"))
  ∧ same_store w out.2.
Proof.
  intros H out. subst out. open_world w.
  unfold login, DoctorModel_findOne_email, bcrypt_compare_call, same_store.
  run.
  destruct H as [-> | (d & p & h & -> & Hst & -> & Hh & Hc)]; [done |].
  rewrite Hst, Hh. rewrite bool_decide_eq_true_2 by done. run.
  by rewrite Hc.
Qed.

Lemma login_failure_uniform_witness :
  (login Clinic.env (mkRequest "" Clinic.stranger_login None) Clinic.world).1
  = (login Clinic.env (mkRequest "" Clinic.carol_typo None) Clinic.world).1.
Proof.
  destruct (login_failure_uniform Clinic.env
              (mkRequest "" Clinic.stranger_login None) Clinic.world)
    as [H1 _]; [left; reflexivity |].
  destruct (login_failure_uniform Clinic.env
              (mkRequest "" Clinic.carol_typo None) Clinic.world)
    as [H2 _].
  { right. exists Clinic.carol, "pW", "$2a$10$pw". repeat split. }
  by rewrite H1, H2.
Defined.

(** X3. When the approved doctor found has no stored password hash (as a
    record created by the entry file's POST /doctor), or the request brings
    no password, bcrypt rejects its arguments and the login is answered 500
    with that error text; session and store are as before. *)
Theorem login_illegal_arguments env req w d :
  doctor_by_email (doctors w) (Body.email (body req)) = Some d ->
  Doctor.status d = Some "approved" ->
  Body.password (body req) = None ∨ Doctor.passwordHash d = None ->
  let out := login env req w in
  out.1 = Ok (Json 500
                (Message false
                   ("Error during login: Illegal arguments: "
                    +:+ JS.typeof (Body.password (body req)) +:+ ", "
                    +:+ JS.typeof (Doctor.passwordHash d))))
  ∧ same_store w out.2.
Proof.
  intros Hd Hst H out. subst out. open_world w.
  unfold login, DoctorModel_findOne_email, bcrypt_compare_call, same_store.
  run. rewrite Hd, Hst. rewrite bool_decide_eq_true_2 by done. run.
  destruct H as [-> | ->]; [done |].
  by destruct (Body.password (body req)).
Qed.

Lemma login_illegal_arguments_witness :
  (login Clinic.env (mkRequest "" Clinic.dave_login None) Clinic.world).1
  = Ok (Json 500
          (Message false
             "Error during login: Illegal arguments: string, undefined")).
Proof.
  destruct (login_illegal_arguments Clinic.env
              (mkRequest "" Clinic.dave_login None) Clinic.world Clinic.dave)
    as [H _]; [reflexivity | reflexivity | by right | exact H].
Defined.

Lemma login_effect env req w :
  let out := login env req w in
  doctors out.2 = doctors w
  ∧ appointments out.2 = appointments w
  ∧ ∃ resp, out.1 = Ok resp
            ∧ status_code resp ∈ [200%N; 401%N; 403%N; 500%N].
Proof.
  intros out. subst out. open_world w.
  unfold login, DoctorModel_findOne_email, bcrypt_compare_call, session_set.
  run.
  destruct (doctor_by_email ds _) as [d |]; run.
  2: { repeat split. eexists. split; [done |]. cbn. set_solver. }
  destruct (bool_decide _); cbn [negb].
  2: { repeat split. eexists. split; [done |]. cbn. set_solver. }
  destruct (Body.password _), (Doctor.passwordHash d); run;
    try (repeat split; eexists; split; [done |]; cbn; set_solver).
  destruct (bcrypt_compare _ _ _); cbn [negb];
    try (repeat split; eexists; split; [done |]; cbn; set_solver).
  destruct s; run; repeat split; eexists; (split; [done |]); cbn; set_solver.
Qed.

(** X4. Whatever the request and whatever its outcome, login reads the
    store and never writes it, and it always answers: the doctors and the
    appointments after the request are those before it, and the status is
    one of 200, 401, 403 and 500. *)
Theorem login_never_writes env req w :
  let out := login env req w in
  doctors out.2 = doctors w
  ∧ appointments out.2 = appointments w
  ∧ ∃ resp, out.1 = Ok resp
            ∧ status_code resp ∈ [200%N; 401%N; 403%N; 500%N].
Proof. exact (login_effect env req w). Qed.

(** ** Further properties of registration *)

Lemma register_cases env req w :
  let b := body req in
  (∃ d, doctor_by_email (doctors w) (Body.email b) = Some d
        ∧ register env req w =
            (Ok (Json 400 (Message false "Doctor with this email already exists")),
             mkWorld (doctors w) (appointments w) (session w) (draws w)
               (trace w ++ [call "DoctorModel.findOne"])))
  ∨ (doctor_by_email (doctors w) (Body.email b) = None
     ∧ ∃ p s l,
         Body.password b = Some p ∧ Body.specialization b = Some s
         ∧ Body.location b = Some l
         ∧ create_error env (doctors w)
             (registered_doctor env b p s l (draws w)) = None
         ∧ register env req w =
             (Ok (Json 201
                    (Registered
                       "Doctor registered successfully! Please wait for admin approval."
                       (generateCode env (S (draws w))))),
              mkWorld (doctors w ++ [registered_doctor env b p s l (draws w)])
                (appointments w) (session w) (S (S (draws w)))
                (trace w ++ [call "DoctorModel.findOne"; call "bcrypt.hash";
                             call "generateCode"; call "DoctorModel.create"])))
  ∨ (doctor_by_email (doctors w) (Body.email b) = None
     ∧ ∃ msg n t,
         register env req w =
           (Ok (Json 500 (Message false ("Error registering doctor: " +:+ msg))),
            mkWorld (doctors w) (appointments w) (session w) n t)).
Proof.
  intros b.
  destruct (doctor_by_email (doctors w) (Body.email b)) as [d |] eqn:Hd.
  { left. exists d. split; [done |]. by apply (register_run_exists env req w d). }
  right.
  destruct (Body.password b) as [p |] eqn:Hp;
    [destruct (Body.specialization b) as [s |] eqn:Hs;
     [destruct (Body.location b) as [l |] eqn:Hl |] |].
  - destruct (create_error env (doctors w)
                (registered_doctor env b p s l (draws w))) as [e |] eqn:Hc.
    + right. split; [done |]. eexists _, _, _.
      by apply (register_run_rejected env req w p s l e).
    + left. split; [done |]. exists p, s, l. repeat split; try done.
      by apply register_run_fresh.
  - right. split; [done |]. apply register_run_incomplete; auto.
  - right. split; [done |]. apply register_run_incomplete; auto.
  - right. split; [done |]. apply register_run_incomplete; auto.
Qed.

Lemma doctor_by_email_None_not_elem ds e :
  doctor_by_email ds e = None -> e ∉ Doctor.email <$> ds.
Proof.
  intros Hn Hin. apply list_elem_of_fmap in Hin as (d & -> & Hd).
  destruct (doctor_by_email_exists ds (Doctor.email d) d Hd eq_refl) as [x Hx].
  congruence.
Qed.

Lemma doctor_by_email_snoc ds d e :
  doctor_by_email ds e = None -> Doctor.email d = e ->
  doctor_by_email (ds ++ [d]) e = Some d.
Proof.
  unfold doctor_by_email. intros Hn He.
  induction ds as [| x r IH]; cbn in *.
  - by rewrite bool_decide_eq_true_2.
  - destruct (bool_decide (Doctor.email x = e)); [done | auto].
Qed.

Lemma lower_ascii_idemp c : JS.lower_ascii (JS.lower_ascii c) = JS.lower_ascii c.
Proof. by destruct c as [[] [] [] [] [] [] [] []]. Qed.

Lemma ascii_toLowerCase_idemp s :
  JS.ascii_toLowerCase (JS.ascii_toLowerCase s) = JS.ascii_toLowerCase s.
Proof.
  induction s as [| c r IH]; [done |]. cbn. by rewrite lower_ascii_idemp, IH.
Qed.

(** X5. A registration request never touches the appointments or the
    session and always gets an answer; a doctor is added exactly when the
    answer is 201, and then exactly one, with status "pending", no profile
    picture and the email of the request, behind the doctors already there;
    on 400 and 500 the collection is as before. *)
Theorem register_effect env req w :
  let out := register env req w in
  appointments out.2 = appointments w
  ∧ session out.2 = session w
  ∧ ∃ resp,
      out.1 = Ok resp
      ∧ ((status_code resp = 201%N
          ∧ ∃ d, doctors out.2 = (doctors w ++ [d])%list
                 ∧ Doctor.status d = Some "pending"
                 ∧ Doctor.profilePicture d = None
                 ∧ Doctor.email d = Body.email (body req))
         ∨ ((status_code resp = 400%N ∨ status_code resp = 500%N)
            ∧ doctors out.2 = doctors w)).
Proof.
  intros out. subst out.
  destruct (register_cases env req w)
    as [(d & _ & ->) | [(_ & p & s & l & _ & _ & _ & _ & ->)
                       | (_ & msg & n & t & ->)]];
    cbn [fst snd doctors appointments session]; repeat split;
    eexists; (split; [reflexivity |]).
  - right. split; [by left | done].
  - left. split; [done |]. by eexists.
  - right. split; [by right | done].
Qed.

(** X6. Registration keeps emails unique: if no two stored doctors have the
    same email before a registration request, none have after it, whatever
    the request. *)
Theorem register_keeps_emails_unique env req w :
  NoDup (Doctor.email <$> doctors w) ->
  NoDup (Doctor.email <$> doctors (register env req w).2).
Proof.
  intros Hnd.
  destruct (register_cases env req w)
    as [(d & _ & ->) | [(Hn & p & s & l & _ & _ & _ & _ & ->)
                       | (_ & msg & n & t & ->)]];
    cbn [snd doctors]; try done.
  rewrite fmap_app. apply NoDup_app. split; [done |]. split.
  - intros e He Hin. apply list_elem_of_singleton in Hin. subst e.
    by apply doctor_by_email_None_not_elem in Hn.
  - apply NoDup_singleton.
Qed.

Lemma register_keeps_emails_unique_witness :
  NoDup (Doctor.email
           <$> doctors (register Sample.env (mkRequest "" Sample.signup None)
                          Sample.world).2)
  ∧ List.length (doctors (register Sample.env (mkRequest "" Sample.signup None)
                            Sample.world).2) = 2.
Proof.
  split; [| reflexivity].
  apply (register_keeps_emails_unique Sample.env
           (mkRequest "" Sample.signup None) Sample.world).
  apply NoDup_singleton.
Defined.

(** X7. After a registration answered 201, a further registration request
    with the same email, whatever its other fields, is answered 400 "Doctor
    with this email already exists" and adds nothing. *)
Theorem register_twice_conflict env req req' w id :
  (register env req w).1
  = Ok (Json 201
          (Registered
             "Doctor registered successfully! Please wait for admin approval."
             id)) ->
  Body.email (body req') = Body.email (body req) ->
  let w1 := (register env req w).2 in
  let out := register env req' w1 in
  out.1 = Ok (Json 400 (Message false "Doctor with this email already exists"))
  ∧ doctors out.2 = doctors w1.
Proof.
  intros H201 He w1 out. subst out w1.
  destruct (register_cases env req w)
    as [(d & _ & E) | [(Hn & p & s & l & _ & _ & _ & _ & E)
                      | (_ & msg & n & t & E)]];
    rewrite E in H201 |- *; cbn [fst snd] in *; try discriminate.
  match goal with
  | |- context [register env req' ?w1] =>
      rewrite (register_run_exists env req' w1
                 (registered_doctor env (body req) p s l (draws w)))
  end; [done |].
  cbn [doctors]. rewrite He. by apply doctor_by_email_snoc.
Qed.

Lemma register_twice_conflict_witness :
  let w1 := (register Sample.env (mkRequest "" Sample.signup None)
               Sample.world).2 in
  (register Sample.env (mkRequest "" Sample.signup None) w1).1
  = Ok (Json 400 (Message false "Doctor with this email already exists"))
  ∧ List.length (doctors w1) = 2.
Proof.
  intros w1. split; [| reflexivity].
  destruct (register_twice_conflict Sample.env
              (mkRequest "" Sample.signup None)
              (mkRequest "" Sample.signup None) Sample.world "DOC001")
    as [H _]; [reflexivity | reflexivity | exact H].
Defined.

(** X8. Registration does not log the doctor in and the new account cannot
    log in yet: after a registration answered 201, a login request with the
    registered email is answered 403 whatever the password, and the session
    stays as it was before the registration. *)
Theorem register_then_login_pending env req req' w id :
  (register env req w).1
  = Ok (Json 201
          (Registered
             "Doctor registered successfully! Please wait for admin approval."
             id)) ->
  Body.email (body req') = Body.email (body req) ->
  let out := login env req' (register env req w).2 in
  out.1 = Ok (Json 403
                (Message false
                   "Your account is pending approval. Please wait for admin approval."))
  ∧ session out.2 = session w.
Proof.
  intros H201 He out. subst out.
  destruct (register_cases env req w)
    as [(d & _ & E) | [(Hn & p & s & l & _ & _ & _ & _ & E)
                      | (_ & msg & n & t & E)]];
    rewrite E in H201 |- *; cbn [fst snd] in *; try discriminate.
  match goal with
  | |- context [login env req' ?w1] =>
      rewrite (login_run_unapproved env req' w1
                 (registered_doctor env (body req) p s l (draws w)))
  end; [done | | done].
  cbn [doctors]. rewrite He. by apply doctor_by_email_snoc.
Qed.

Lemma register_then_login_pending_witness :
  let out := login Sample.env (mkRequest "" Sample.signup None)
               (register Sample.env (mkRequest "" Sample.signup None)
                  Sample.world).2 in
  status_code (default (Redirect "") (response_of out)) = 403%N
  ∧ session out.2 = Some Sample.sess.
Proof.
  intros out.
  destruct (register_then_login_pending Sample.env
              (mkRequest "" Sample.signup None)
              (mkRequest "" Sample.signup None) Sample.world "DOC001")
    as [H1 H2]; [reflexivity | reflexivity |].
  subst out. unfold response_of. rewrite H1, H2. split; reflexivity.
Defined.

(** X9. Registration keeps the lower-case form of specialization and
    location, [toLowerCase] being idempotent: if the runtime's [toLowerCase]
    leaves both fields of every stored doctor as they are before a
    registration request, it does so after it. *)
Theorem register_keeps_lowercased env req w :
  (∀ s, toLowerCase env (toLowerCase env s) = toLowerCase env s) ->
  Forall (lowercased env) (doctors w) ->
  Forall (lowercased env) (doctors (register env req w).2).
Proof.
  intros Hidem Hlow.
  destruct (register_cases env req w)
    as [(d & _ & ->) | [(Hn & p & s & l & _ & _ & _ & _ & ->)
                       | (_ & msg & n & t & ->)]];
    cbn [snd doctors]; try done.
  apply Forall_app. split; [done |]. apply Forall_singleton.
  split; cbn; intros x [= <-]; apply Hidem.
Qed.

Lemma register_keeps_lowercased_witness :
  Forall (lowercased Sample.env)
    (doctors (register Sample.env (mkRequest "" Sample.signup None)
                Sample.world).2).
Proof.
  apply (register_keeps_lowercased Sample.env
           (mkRequest "" Sample.signup None) Sample.world).
  - exact ascii_toLowerCase_idemp.
  - repeat constructor; intros s [= <-]; reflexivity.
Defined.

(** X10. When the store rejects the new document (a generated identifier
    that a unique index already holds, say), registration answers 500 with
    the store's error text and stores nothing; it does not try again: the
    generator and [create] are each called once. *)
Theorem register_store_rejects env req w p s l e :
  doctor_by_email (doctors w) (Body.email (body req)) = None ->
  Body.password (body req) = Some p ->
  Body.specialization (body req) = Some s ->
  Body.location (body req) = Some l ->
  create_error env (doctors w)
    (registered_doctor env (body req) p s l (draws w)) = Some e ->
  let out := register env req w in
  out.1 = Ok (Json 500
                (Message false ("Error registering doctor: " +:+ JS.message e)))
  ∧ same_store w out.2
  ∧ events_of w out.2 = [call "DoctorModel.findOne"; call "bcrypt.hash";
                         call "generateCode"; call "DoctorModel.create";
                         console_error "Doctor registration error:"].
Proof.
  intros Hn Hp Hs Hl Hc out. subst out.
  rewrite (register_run_rejected env req w p s l e Hn Hp Hs Hl Hc).
  unfold events_of. cbn [fst snd trace]. by rewrite drop_app_length.
Qed.

Lemma register_store_rejects_witness :
  let w := mkWorld [Clinic.carol] ∅ None 0 [] in
  let out := register Clinic.env (mkRequest "" Sample.signup None) w in
  out.1 = Ok (Json 500
                (Message false
                   "Error registering doctor: E11000 duplicate key error collection: doctors"))
  ∧ doctors out.2 = [Clinic.carol].
Proof.
  intros w out.
  destruct (register_store_rejects Clinic.env (mkRequest "" Sample.signup None)
              w "p" "Cardio" "NY"
              (JS.Error "E11000 duplicate key error collection: doctors"))
    as (H1 & (H2 & _) & _); try reflexivity.
  split; [exact H1 | exact H2].
Defined.

(** ** Further properties of the profile routes and the dashboard *)

Section UpdateFirstSplit.

Context {A : Type} (p : A -> bool) (f : A -> A).

(** Either nothing satisfies [p] and the list is returned as it is, or the
    list splits at the first element that does, which alone is rewritten. *)
Lemma update_first_split l :
  (find p l = None ∧ update_first p f l = (l, None))
  ∨ ∃ l1 x l2,
      l = (l1 ++ x :: l2)%list
      ∧ Forall (fun y => p y = false) l1
      ∧ p x = true
      ∧ find p l = Some x
      ∧ update_first p f l = ((l1 ++ f x :: l2)%list, Some (f x)).
Proof.
  induction l as [| y r IH]; [by left |]. cbn.
  destruct (p y) eqn:Hy.
  - right. exists [], y, r. by repeat split.
  - destruct IH as [[Hn ->] | (l1 & x & l2 & -> & Hl1 & Hx & Hf & ->)].
    + by left.
    + right. exists (y :: l1), x, l2. repeat split; try done.
      by constructor.
Qed.

End UpdateFirstSplit.

Lemma profile_run req w sess :
  doctor_session w sess ->
  profile req w =
    (Ok (match doctor_by_id (doctors w) (doctorId sess) with
         | None => Json 404 (Message false "Doctor not found")
         | Some d => Json 200 (Profile (select_minus_passwordHash d))
         end),
     mkWorld (doctors w) (appointments w) (session w) (draws w)
       (trace w ++ [call "DoctorModel.findOne"])).
Proof.
  intros [Hs Ht]. open_world w. subst s.
  unfold profile, isDoctorLoggedIn, session_doctorId,
    DoctorModel_findOne_doctorid. run. rewrite Ht. run.
  by destruct (doctor_by_id ds (doctorId sess)).
Qed.

(** X11. GET /profile by a doctor session answers 404 "Doctor not found"
    when no stored doctor has the session's identifier, and otherwise 200
    with the first such doctor as stored but for the password hash; a
    record it returns never carries a password hash, and it writes
    nothing. *)
Theorem profile_fetch req w sess :
  doctor_session w sess ->
  let out := profile req w in
  same_store w out.2
  ∧ (doctor_by_id (doctors w) (doctorId sess) = None ->
     out.1 = Ok (Json 404 (Message false "Doctor not found")))
  ∧ (∀ d, doctor_by_id (doctors w) (doctorId sess) = Some d ->
          out.1 = Ok (Json 200 (Profile (select_minus_passwordHash d))))
  ∧ ∀ d', out.1 = Ok (Json 200 (Profile d')) -> Doctor.passwordHash d' = None.
Proof.
  intros Hsess out. subst out. rewrite (profile_run req w sess Hsess).
  cbn [fst snd]. split; [done |]. split; [by intros -> |].
  split; [by intros d -> |].
  intros d' H. destruct (doctor_by_id _ _); [| discriminate].
  by injection H as <-.
Qed.

Lemma profile_fetch_witness :
  (profile (mkRequest "" Body.empty None) Clinic.logged_in).1
  = Ok (Json 200
          (Profile
             (Doctor.mk (Some "Carol") (Some "c@x.com") None (Some "3")
                (Some "f") (Some "derma") (Some "la") (Some "") "D3"
                (Some "approved") None)))
  ∧ (profile (mkRequest "" Body.empty None) Clinic.stale).1
    = Ok (Json 404 (Message false "Doctor not found")).
Proof.
  split.
  - destruct (profile_fetch (mkRequest "" Body.empty None) Clinic.logged_in
                (mkSession (Some "D3") (Some "c@x.com")))
      as (_ & _ & H & _); [by split |].
    by apply (H Clinic.carol).
  - destruct (profile_fetch (mkRequest "" Body.empty None) Clinic.stale
                (mkSession (Some "D9") None))
      as (_ & H & _); [by split |].
    by apply H.
Defined.

(** X12. What a profile update returns is what a following GET /profile
    returns: for a doctor session whose doctor exists, the record in the
    update's answer and the record fetched afterwards are the same, namely
    the stored doctor with the submitted fields and without the hash. *)
Theorem profile_update_then_fetch env req req' w sess d :
  doctor_session w sess ->
  doctor_by_id (doctors w) (doctorId sess) = Some d ->
  let r := select_minus_passwordHash (profile_fields env (body req) d) in
  let out := profile_update env req w in
  out.1 = Ok (Json 200 (ProfileUpdated "Profile updated successfully" (Some r)))
  ∧ (profile req' out.2).1 = Ok (Json 200 (Profile r)).
Proof.
  intros Hsess Hd r out.
  assert (doctor_session out.2 sess) as Hsess'.
  { subst out. rewrite (profile_update_run env req w sess Hsess). exact Hsess. }
  rewrite (profile_run req' out.2 sess Hsess'). cbn [fst].
  subst out. rewrite (profile_update_stored env req w sess d Hsess Hd).
  rewrite (profile_update_run env req w sess Hsess). cbn [fst].
  rewrite update_first_snd. unfold doctor_by_id in Hd. by rewrite Hd.
Qed.

Lemma profile_update_then_fetch_witness :
  let out := profile_update Sample.env (mkRequest "" Sample.edit None)
               Sample.world in
  (profile (mkRequest "" Body.empty None) out.2).1
  = Ok (Json 200
          (Profile
             (Doctor.mk (Some "Alice B") (Some "a@x.com") None (Some "3")
                (Some "f") (Some "Cardio") (Some "NY") (Some "General") "D1"
                (Some "pending") None))).
Proof.
  intros out.
  destruct (profile_update_then_fetch Sample.env
              (mkRequest "" Sample.edit None) (mkRequest "" Body.empty None)
              Sample.world Sample.sess Sample.alice) as [_ H];
    [by split | reflexivity | exact H].
Defined.

(** X13. A profile update by a session whose identifier matches no stored
    doctor is still answered 200 "Profile updated successfully", with no
    doctor in the body, and changes nothing. *)
Theorem profile_update_unknown_doctor env req w sess :
  doctor_session w sess ->
  doctor_by_id (doctors w) (doctorId sess) = None ->
  let out := profile_update env req w in
  out.1 = Ok (Json 200 (ProfileUpdated "Profile updated successfully" None))
  ∧ same_store w out.2.
Proof.
  intros Hsess Hd out. subst out.
  rewrite (profile_update_run env req w sess Hsess). cbn [fst snd].
  unfold doctor_by_id in Hd.
  destruct (update_first_split
              (fun d => bool_decide (Some (Doctor.doctorid d) = doctorId sess))
              (profile_fields env (body req)) (doctors w))
    as [[_ ->] | (l1 & x & l2 & _ & _ & _ & Hf & _)]; [done | congruence].
Qed.

Lemma profile_update_unknown_doctor_witness :
  let out := profile_update Sample.env (mkRequest "" Sample.edit None)
               Clinic.stale in
  out.1 = Ok (Json 200 (ProfileUpdated "Profile updated successfully" None))
  ∧ doctors out.2 = [Sample.alice].
Proof.
  intros out.
  destruct (profile_update_unknown_doctor Sample.env
              (mkRequest "" Sample.edit None) Clinic.stale
              (mkSession (Some "D9") None)) as (H1 & H2 & _);
    [by split | reflexivity | by split].
Defined.

(** X14. A profile update changes at most one stored doctor: either the
    collection is as before, or it splits around the first doctor with the
    session's identifier, that doctor gets the submitted fields, and all
    doctors before and after it, including later ones with the same
    identifier, are exactly as before. *)
Theorem profile_update_one_document env req w sess :
  doctor_session w sess ->
  let out := profile_update env req w in
  doctors out.2 = doctors w
  ∨ ∃ l1 d l2,
      doctors w = (l1 ++ d :: l2)%list
      ∧ Forall (fun x => Some (Doctor.doctorid x) ≠ doctorId sess) l1
      ∧ Some (Doctor.doctorid d) = doctorId sess
      ∧ doctors out.2 = (l1 ++ profile_fields env (body req) d :: l2)%list.
Proof.
  intros Hsess out. subst out.
  rewrite (profile_update_run env req w sess Hsess). cbn [snd doctors].
  destruct (update_first_split
              (fun d => bool_decide (Some (Doctor.doctorid d) = doctorId sess))
              (profile_fields env (body req)) (doctors w))
    as [[_ ->] | (l1 & x & l2 & E & Hl1 & Hx & _ & ->)]; [by left |].
  right. exists l1, x, l2. cbn [fst]. repeat split; try done.
  - eapply Forall_impl; [exact Hl1 |]. intros y Hy.
    by apply bool_decide_eq_false in Hy.
  - by apply bool_decide_eq_true in Hx.
Qed.

Lemma profile_update_one_document_witness :
  let w := mkWorld [Clinic.carol; Sample.alice; Sample.alice] ∅
             (Some Sample.sess) 0 [] in
  let out := profile_update Sample.env (mkRequest "" Sample.edit None) w in
  (doctors out.2 = doctors w
   ∨ ∃ l1 d l2,
       doctors w = (l1 ++ d :: l2)%list
       ∧ Forall (fun x => Some (Doctor.doctorid x) ≠ doctorId Sample.sess) l1
       ∧ Some (Doctor.doctorid d) = doctorId Sample.sess
       ∧ doctors out.2 = (l1 ++ profile_fields Sample.env Sample.edit d :: l2)%list)
  ∧ doctors out.2
    = [Clinic.carol; profile_fields Sample.env Sample.edit Sample.alice;
       Sample.alice].
Proof.
  intros w out. split; [| reflexivity].
  apply (profile_update_one_document Sample.env
           (mkRequest "" Sample.edit None) w Sample.sess).
  by split.
Defined.

Lemma profile_picture_run env req w sess :
  doctor_session w sess ->
  profile_picture env req w =
    match file req with
    | None =>
        (Ok (Json 400 (Message false "No file uploaded")),
         mkWorld (doctors w) (appointments w) (session w) (draws w) (trace w))
    | Some path =>
        match cloudinary_upload env path with
        | Throw e =>
            (Ok (Json 500
                   (Message false
                      ("Error uploading profile picture: " +:+ JS.message e))),
             mkWorld (doctors w) (appointments w) (session w) (draws w)
               (trace w ++ [call "cloudinary.uploader.upload";
                            console_error "Profile picture upload error:"]))
        | Ok url =>
            let r := update_first
                       (fun d => bool_decide
                                   (Some (Doctor.doctorid d) = doctorId sess))
                       (picture_field url) (doctors w) in
            (Ok (Json 200
                   (PictureUploaded "Profile picture uploaded successfully" url
                      (select_minus_passwordHash <$> r.2))),
             mkWorld r.1 (appointments w) (session w) (draws w)
               (trace w ++ [call "cloudinary.uploader.upload";
                            call "DoctorModel.findOneAndUpdate"]))
        end
    end.
Proof.
  intros [Hs Ht]. open_world w. subst s.
  unfold profile_picture, isDoctorLoggedIn, session_doctorId,
    DoctorModel_findOneAndUpdate_doctorid. run. rewrite Ht. run.
  destruct (file req) as [path |]; [| done]. run.
  destruct (cloudinary_upload env path) as [url | e]; run.
  - destruct (update_first _ _ ds) as [ds' o]. run.
    by rewrite <- !app_assoc.
  - by rewrite <- !app_assoc.
Qed.

(** X15. A picture upload without a file, and one whose upload to the media
    host is rejected, leave the store as it was: the first is answered 400
    "No file uploaded" before the media host is called at all, the second
    500 with the media host's error text. *)
Theorem profile_picture_failures env req w sess :
  doctor_session w sess ->
  let out := profile_picture env req w in
  (file req = None ->
   out.1 = Ok (Json 400 (Message false "No file uploaded"))
   ∧ same_store w out.2
   ∧ events_of w out.2 = [])
  ∧ (∀ path e,
       file req = Some path ->
       cloudinary_upload env path = Throw e ->
       out.1 = Ok (Json 500
                     (Message false
                        ("Error uploading profile picture: " +:+ JS.message e)))
       ∧ same_store w out.2).
Proof.
  intros Hsess out. subst out.
  rewrite (profile_picture_run env req w sess Hsess). split.
  - intros ->. cbn [fst snd]. unfold events_of. cbn [trace].
    by rewrite drop_all.
  - intros path e -> ->. done.
Qed.

Lemma profile_picture_failures_witness :
  (profile_picture Clinic.env (mkRequest "" Body.empty None) Clinic.logged_in).1
  = Ok (Json 400 (Message false "No file uploaded"))
  ∧ (profile_picture Clinic.env (mkRequest "" Body.empty (Some ""))
       Clinic.logged_in).1
    = Ok (Json 500
            (Message false "Error uploading profile picture: Empty file")).
Proof.
  split.
  - destruct (profile_picture_failures Clinic.env
                (mkRequest "" Body.empty None) Clinic.logged_in
                (mkSession (Some "D3") (Some "c@x.com")))
      as [H _]; [by split |].
    by apply H.
  - destruct (profile_picture_failures Clinic.env
                (mkRequest "" Body.empty (Some "")) Clinic.logged_in
                (mkSession (Some "D3") (Some "c@x.com")))
      as [_ H]; [by split |].
    by apply (H "" (JS.Error "Empty file")).
Defined.

(** X16. A picture upload that the media host accepts answers 200 with the
    URL the host returned, stores that URL as the profile picture of the
    session's doctor, returns that doctor without the password hash, and
    changes no other field of any doctor. *)
Theorem profile_picture_stored env req w sess path url d :
  doctor_session w sess ->
  file req = Some path ->
  cloudinary_upload env path = Ok url ->
  doctor_by_id (doctors w) (doctorId sess) = Some d ->
  let out := profile_picture env req w in
  out.1 = Ok (Json 200
                (PictureUploaded "Profile picture uploaded successfully" url
                   (Some (select_minus_passwordHash (picture_field url d)))))
  ∧ doctor_by_id (doctors out.2) (doctorId sess) = Some (picture_field url d)
  ∧ Doctor.profilePicture (picture_field url d) = Some url
  ∧ Forall2 same_outside_picture (doctors w) (doctors out.2)
  ∧ appointments out.2 = appointments w
  ∧ session out.2 = session w.
Proof.
  intros Hsess Hf Hu Hd out. subst out.
  rewrite (profile_picture_run env req w sess Hsess), Hf, Hu.
  cbn [fst snd doctors appointments session]. unfold doctor_by_id in *.
  rewrite update_first_snd, update_first_find, Hd by done.
  repeat split; try done.
  apply update_first_Forall2; intros x; by repeat split.
Qed.

Lemma profile_picture_stored_witness :
  let out := profile_picture Clinic.env
               (mkRequest "" Body.empty (Some "public/1-me.png"))
               Clinic.logged_in in
  doctor_by_id (doctors out.2) (Some "D3")
  = Some (picture_field "https://res.cloudinary.com/public/1-me.png"
            Clinic.carol)
  ∧ Forall2 same_outside_picture (doctors Clinic.logged_in) (doctors out.2).
Proof.
  intros out.
  destruct (profile_picture_stored Clinic.env
              (mkRequest "" Body.empty (Some "public/1-me.png"))
              Clinic.logged_in (mkSession (Some "D3") (Some "c@x.com"))
              "public/1-me.png" "https://res.cloudinary.com/public/1-me.png"
              Clinic.carol) as (_ & H1 & _ & H2 & _);
    [by split | reflexivity | reflexivity | reflexivity |].
  split; [exact H1 | exact H2].
Defined.

(** X17. The dashboard of a session whose identifier matches no stored
    doctor redirects to the login page; the appointments are not queried
    and nothing is written. *)
Theorem dashboard_unknown_doctor req w sess :
  doctor_session w sess ->
  doctor_by_id (doctors w) (doctorId sess) = None ->
  let out := dashboard req w in
  out.1 = Ok (Redirect "/doctorLogin")
  ∧ same_store w out.2
  ∧ events_of w out.2 = [call "DoctorModel.findOne"].
Proof.
  intros [Hs Ht] Hd out. subst out. open_world w. subst s.
  unfold dashboard, isDoctorLoggedIn, session_doctorId,
    DoctorModel_findOne_doctorid, events_of. run. rewrite Ht. run.
  rewrite Hd. cbn [fst snd trace]. by rewrite drop_app_length.
Qed.

Lemma dashboard_unknown_doctor_witness :
  (dashboard (mkRequest "" Body.empty None) Clinic.stale).1
  = Ok (Redirect "/doctorLogin").
Proof.
  destruct (dashboard_unknown_doctor (mkRequest "" Body.empty None)
              Clinic.stale (mkSession (Some "D9") None)) as [H _];
    [by split | reflexivity | exact H].
Defined.

(** ** Further properties of the appointment routes *)

Lemma notify_patient_run env a i w :
  notify_patient env a i w =
    (Ok tt,
     mkWorld (doctors w) (appointments w) (session w) (draws w)
       (trace w ++ notification_events (doctor_by_id (doctors w) i)
                     (sendAppointmentConfirmationEmail env a
                        (doctor_by_id (doctors w) i)))).
Proof.
  open_world w.
  unfold notify_patient, getDoctorById, DoctorModel_findOne_doctorid,
    notification_events. run.
  destruct (doctor_by_id ds i) as [d |]; run;
    (destruct (sendAppointmentConfirmationEmail env a _) as [r | e]; run;
     [destruct (success r); run |]); by rewrite <- !app_assoc.
Qed.

Lemma confirm_run_owned_trace env req w sess a :
  doctor_session w sess ->
  appointments w !! params_appointmentId req = Some a ->
  Appointment.doctorid a = doctorId sess ->
  let a' := confirmed env (body req) a in
  let found := doctor_by_id (doctors w) (doctorId sess) in
  confirm env req w =
    (Ok (Json 200
           (AppointmentConfirmed
              "Appointment confirmed successfully. Patient will be notified."
              a' true)),
     mkWorld (doctors w) (<[params_appointmentId req := a']> (appointments w))
       (session w) (draws w)
       (trace w
        ++ [console_log "The doctor is in appoints route ";
            console_log "Confirming appointment:"; call "appointment.findOne";
            call "appointment.save"]
        ++ notification_events found
             (sendAppointmentConfirmationEmail env a' found))).
Proof.
  intros [Hs Ht] Ha Hown a' found. open_world w. subst s.
  unfold confirm, isDoctorLoggedIn, session_doctorId, appointment_findOne,
    appointment_save. run. rewrite Ht. run. rewrite Ha.
  rewrite bool_decide_eq_true_2 by done. run.
  rewrite notify_patient_run. run.
  by rewrite <- !app_assoc.
Qed.

(** X18. A successful confirmation writes one appointment and nothing else:
    the appointment keeps its doctor identifier, patient contact and
    creation time, every appointment under another id is untouched, no id
    is added or removed, and doctors and session are as before. *)
Theorem confirm_frame env req w sess a :
  doctor_session w sess ->
  appointments w !! params_appointmentId req = Some a ->
  Appointment.doctorid a = doctorId sess ->
  let out := confirm env req w in
  (∃ a', appointments out.2 !! params_appointmentId req = Some a'
         ∧ same_booking a a')
  ∧ (∀ id, id ≠ params_appointmentId req ->
           appointments out.2 !! id = appointments w !! id)
  ∧ dom (appointments out.2) = dom (appointments w)
  ∧ doctors out.2 = doctors w
  ∧ session out.2 = session w.
Proof.
  intros Hsess Ha Hown out. subst out.
  rewrite (confirm_run_owned_trace env req w sess a Hsess Ha Hown).
  cbn [fst snd doctors appointments session]. repeat split.
  - eexists. rewrite lookup_insert_eq. by repeat split.
  - intros id Hne. by rewrite lookup_insert_ne.
  - rewrite dom_insert_L. apply subseteq_union_1_L, singleton_subseteq_l.
    by apply elem_of_dom_2 in Ha.
Qed.

Lemma confirm_frame_witness :
  let out := confirm Sample.env (mkRequest "a1" Sample.slot None) Sample.world in
  appointments out.2 !! "a2" = Some Sample.later
  ∧ appointments out.2 !! "a3" = Some Sample.foreign
  ∧ dom (appointments out.2) = dom (appointments Sample.world).
Proof.
  intros out.
  destruct (confirm_frame Sample.env (mkRequest "a1" Sample.slot None)
              Sample.world Sample.sess Sample.booked)
    as (_ & H & Hdom & _); [by split | reflexivity | reflexivity |].
  split; [| split; [| exact Hdom]].
  - exact (H "a2" ltac:(discriminate)).
  - exact (H "a3" ltac:(discriminate)).
Defined.

(** X19. Confirming is idempotent: repeating a successful confirm request
    gets the same answer and leaves the appointments exactly as the first
    request left them. *)
Theorem confirm_idempotent env req w sess a :
  doctor_session w sess ->
  appointments w !! params_appointmentId req = Some a ->
  Appointment.doctorid a = doctorId sess ->
  let once := confirm env req w in
  let twice := confirm env req once.2 in
  twice.1 = once.1
  ∧ appointments twice.2 = appointments once.2
  ∧ doctors twice.2 = doctors once.2.
Proof.
  intros Hsess Ha Hown once twice. subst twice once.
  rewrite (confirm_run_owned_trace env req w sess a Hsess Ha Hown).
  cbn [fst snd].
  match goal with
  | |- context [confirm env req ?w1] =>
      rewrite (confirm_run_owned_trace env req w1 sess
                 (confirmed env (body req) a))
  end.
  - cbn [fst snd doctors appointments]. by rewrite insert_insert_eq.
  - exact Hsess.
  - cbn [appointments]. by rewrite lookup_insert_eq.
  - exact Hown.
Qed.

Lemma confirm_idempotent_witness :
  let once := confirm Sample.env (mkRequest "a1" Sample.slot None)
                Sample.world in
  let twice := confirm Sample.env (mkRequest "a1" Sample.slot None) once.2 in
  twice.1 = once.1 ∧ appointments twice.2 = appointments once.2.
Proof.
  intros once twice.
  destruct (confirm_idempotent Sample.env (mkRequest "a1" Sample.slot None)
              Sample.world Sample.sess Sample.booked)
    as (H1 & H2 & _); [by split | reflexivity | reflexivity |].
  split; [exact H1 | exact H2].
Defined.

(** X20. After a successful confirmation the doctor's listing shows the
    appointment as confirmed in place of the earlier version: the listed
    appointments are the confirmed one and the doctor's appointments stored
    under the other ids. *)
Theorem confirm_then_listed env req req' w sess a :
  doctor_session w sess ->
  appointments w !! params_appointmentId req = Some a ->
  Appointment.doctorid a = doctorId sess ->
  let a' := confirmed env (body req) a in
  ∃ l,
    (get_appointments_route req' (confirm env req w).2).1
    = Ok (Json 200 (AppointmentList l))
    ∧ Appointment.status a' = Some "confirmed"
    ∧ ∀ x, x ∈ l
           ↔ x = a'
             ∨ ∃ id, id ≠ params_appointmentId req
                     ∧ appointments w !! id = Some x
                     ∧ Appointment.doctorid x = doctorId sess.
Proof.
  intros Hsess Ha Hown a'.
  rewrite (confirm_run_owned_trace env req w sess a Hsess Ha Hown).
  cbn [snd].
  match goal with
  | |- context [get_appointments_route req' ?w1] =>
      rewrite (get_appointments_route_run req' w1 sess Hsess)
  end.
  cbn [fst appointments]. eexists. split; [reflexivity |]. split; [done |].
  intros x. rewrite merge_sort_Permutation, elem_of_appointments_of. split.
  - intros (id & Hl & Hx).
    destruct (decide (id = params_appointmentId req)) as [-> | Hne].
    + rewrite lookup_insert_eq in Hl. left. by injection Hl.
    + rewrite lookup_insert_ne in Hl by done. right. eauto.
  - intros [-> | (id & Hne & Hl & Hx)].
    + exists (params_appointmentId req). by rewrite lookup_insert_eq.
    + exists id. by rewrite lookup_insert_ne.
Qed.

Lemma confirm_then_listed_witness :
  ∃ l, (get_appointments_route (mkRequest "" Body.empty None)
          (confirm Sample.env (mkRequest "a1" Sample.slot None) Sample.world).2).1
       = Ok (Json 200 (AppointmentList l))
       ∧ confirmed Sample.env Sample.slot Sample.booked ∈ l
       ∧ Sample.later ∈ l.
Proof.
  destruct (confirm_then_listed Sample.env (mkRequest "a1" Sample.slot None)
              (mkRequest "" Body.empty None) Sample.world Sample.sess
              Sample.booked) as (l & H1 & _ & H2);
    [by split | reflexivity | reflexivity |].
  exists l. split; [exact H1 |]. split.
  - apply H2. by left.
  - apply H2. right. exists "a2". by repeat split.
Defined.

(** X21. During a successful confirmation the appointment is saved before
    the mail service is called, the service is called once, with the
    confirmed appointment and the session's doctor record, and its outcome
    is logged: success with [console.log], a reported failure and a thrown
    error each with [console.error]. *)
Theorem confirm_notification_logged env req w sess a :
  doctor_session w sess ->
  appointments w !! params_appointmentId req = Some a ->
  Appointment.doctorid a = doctorId sess ->
  let a' := confirmed env (body req) a in
  let found := doctor_by_id (doctors w) (doctorId sess) in
  let outcome := sendAppointmentConfirmationEmail env a' found in
  let events := events_of w (confirm env req w).2 in
  events = ([console_log "The doctor is in appoints route ";
             console_log "Confirming appointment:"; call "appointment.findOne";
             call "appointment.save"]
            ++ notification_events found outcome)%list
  ∧ ((∃ err, outcome = Ok (mkEmailResult true err))
     ↔ filter (fun e => is_console_error e = true) events = []).
Proof.
  intros Hsess Ha Hown a' found outcome events. subst events.
  rewrite (confirm_run_owned_trace env req w sess a Hsess Ha Hown).
  unfold events_of. cbn [snd trace]. rewrite drop_app_length.
  fold a' found outcome. split; [done |].
  unfold notification_events.
  destruct outcome as [[[] err] | e]; cbn; (split; [intros [err' H] | intros H]);
    try done; destruct found; by eauto.
Qed.

Lemma confirm_notification_logged_witness :
  filter (fun e => is_console_error e = true)
    (events_of Sample.world
       (confirm Sample.env (mkRequest "a1" Sample.slot None) Sample.world).2)
  = [console_error "Error in email sending process:"]
  ∧ filter (fun e => is_console_error e = true)
      (events_of Clinic.logged_in
         (confirm Clinic.env (mkRequest "v1" Sample.slot None)
            Clinic.logged_in).2)
    = [console_error "Failed to send appointment confirmation email:"].
Proof.
  split.
  - destruct (confirm_notification_logged Sample.env
                (mkRequest "a1" Sample.slot None) Sample.world Sample.sess
                Sample.booked) as [H _]; [by split | reflexivity | reflexivity |].
    by rewrite H.
  - destruct (confirm_notification_logged Clinic.env
                (mkRequest "v1" Sample.slot None) Clinic.logged_in
                (mkSession (Some "D3") (Some "c@x.com")) Clinic.visit)
      as [H _]; [by split | reflexivity | reflexivity |].
    by rewrite H.
Defined.

(** ** Logout *)

(** X22. Logout needs no doctor identifier: with a session object and a
    session store that reports no error it answers 200 "Logged out
    successfully" even for a session that never logged in, the session is
    gone, and every protected route then redirects to the login page. *)
Theorem logout_ends_session req w sess :
  session w = Some sess ->
  let out := logout None req w in
  out.1 = Ok (Json 200 (Message true "Logged out successfully"))
  ∧ session out.2 = None
  ∧ doctors out.2 = doctors w
  ∧ appointments out.2 = appointments w
  ∧ ∀ env r req',
      protected r = true ->
      doctorRouter env r req' out.2 = (Ok (Redirect "/doctorLogin"), out.2).
Proof.
  intros Hs out. subst out. open_world w. subst s. unfold logout. run.
  repeat split. intros env r req' Hp.
  destruct r; try discriminate; cbn [doctorRouter];
    by apply isDoctorLoggedIn_blocks; left.
Qed.

Lemma logout_ends_session_witness :
  let out := logout None (mkRequest "" Body.empty None) Clinic.logged_in in
  out.1 = Ok (Json 200 (Message true "Logged out successfully"))
  ∧ (doctorRouter Clinic.env GET_appointments
       (mkRequest "" Body.empty None) out.2).1
    = Ok (Redirect "/doctorLogin").
Proof.
  intros out.
  destruct (logout_ends_session (mkRequest "" Body.empty None)
              Clinic.logged_in (mkSession (Some "D3") (Some "c@x.com")))
    as (H1 & _ & _ & _ & H2); [reflexivity |].
  split; [exact H1 |]. subst out.
  by rewrite (H2 Clinic.env GET_appointments (mkRequest "" Body.empty None)).
Defined.

(** X23. When the session store reports an error, logout answers 500 "Error
    logging out" and writes nothing to the collections; and without a
    session object the handler, which has no [try], answers nothing: the
    TypeError of the property read leaves it. *)
Theorem logout_failures req w :
  (∀ sess err,
     session w = Some sess ->
     (logout (Some err) req w).1
     = Ok (Json 500 (Message false "Error logging out"))
     ∧ doctors (logout (Some err) req w).2 = doctors w
     ∧ appointments (logout (Some err) req w).2 = appointments w)
  ∧ (session w = None ->
     ∀ store_error,
       response_of (logout store_error req w) = None
       ∧ (logout store_error req w).2 = w).
Proof.
  split.
  - intros sess err Hs. open_world w. subst s. unfold logout. run. done.
  - intros Hs store_error. open_world w. subst s. unfold logout. run. done.
Qed.

Lemma logout_failures_witness :
  (logout (Some (JS.Error "store offline")) (mkRequest "" Body.empty None)
     Clinic.logged_in).1
  = Ok (Json 500 (Message false "Error logging out"))
  ∧ response_of (logout None (mkRequest "" Body.empty None) Sample.anonymous)
    = None.
Proof.
  destruct (logout_failures (mkRequest "" Body.empty None) Clinic.logged_in)
    as [H _].
  destruct (logout_failures (mkRequest "" Body.empty None) Sample.anonymous)
    as [_ H'].
  split.
  - by apply (H (mkSession (Some "D3") (Some "c@x.com"))).
  - by apply H'.
Defined.

(** ** Admin login on strings *)

(** X24. For string credentials the admin login is exact: the cookie and the
    redirect are granted if and only if the email is "admin@gmail.com" and
    the password is "asdf"; every other pair of strings gets the body
    [{status: 400, valid: "Invalid Email!"}], sent with HTTP status 200 and
    without a cookie.  Either way the store is not written. *)
Theorem admin_login_exact_on_strings e p w :
  let out := admin_login (JS.Str e) (JS.Str p) w in
  same_store w out.2
  ∧ ∃ resp,
      out.1 = Ok resp
      ∧ (sets_cookie resp = true ↔ e = "admin@gmail.com" ∧ p = "asdf")
      ∧ (sets_cookie resp = true ->
         resp = CookieRedirect "admin" (JSON_stringify (JS.Str e) (JS.Str p))
                  "/adminPage")
      ∧ (sets_cookie resp = false ->
         resp = Json 200 (AdminInvalid 400 "Invalid Email!")
         ∧ status_code resp = 200%N).
Proof.
  intros out. subst out. rewrite admin_login_run. cbn [fst snd].
  split; [done |]. eexists. split; [reflexivity |].
  cbn [JS.loose_eq_string].
  destruct (String.eqb_spec e "admin@gmail.com") as [-> | He];
    destruct (String.eqb_spec p "asdf") as [-> | Hp]; cbn;
    repeat split; try done; intros []; done.
Qed.

(** ** What the routes of the doctor router can and cannot change *)

Lemma session_cases w : unauthenticated w ∨ ∃ sess, doctor_session w sess.
Proof.
  unfold unauthenticated, doctor_session.
  destruct (session w) as [sess |]; [| by left; left].
  destruct (JS.truthy (doctorId sess)) eqn:Ht; [right | left; right]; eauto.
Qed.

Lemma same_credentials_refl ds : Forall2 same_credentials ds ds.
Proof. apply Forall_Forall2_diag, Forall_true. by intros d. Qed.

Lemma router_scope_same_store r w w' : same_store w w' -> router_scope r w w'.
Proof.
  intros (Hd & Ha & Hs). unfold router_scope. rewrite Hd, Ha, Hs.
  repeat split. exists (doctors w), []. rewrite app_nil_r.
  split; [done |]. split; [apply same_credentials_refl | by left].
Qed.

Lemma router_scope_update r w w' (p : Doctor.t -> bool) f :
  (∀ d, same_credentials d (f d)) ->
  doctors w' = (update_first p f (doctors w)).1 ->
  appointments w' = appointments w ->
  session w' = session w ->
  router_scope r w w'.
Proof.
  intros Hf Hd Ha Hs. unfold router_scope. rewrite Hd, Ha, Hs.
  repeat split. exists (update_first p f (doctors w)).1, [].
  rewrite app_nil_r. split; [done |]. split; [| by left].
  apply update_first_Forall2; [by intros d | exact Hf].
Qed.

Lemma dashboard_run_full req w sess :
  doctor_session w sess ->
  ∃ resp, dashboard req w = (Ok resp,
                             mkWorld (doctors w) (appointments w) (session w)
                               (draws w)
                               (trace (dashboard req w).2)).
Proof.
  intros [Hs Ht]. open_world w. subst s.
  unfold dashboard, isDoctorLoggedIn, session_doctorId,
    DoctorModel_findOne_doctorid, appointment_find_sorted. run. rewrite Ht. run.
  destruct (doctor_by_id ds (doctorId sess)); run; eauto.
Qed.

Lemma doctorRouter_effect env r req w :
  let out := doctorRouter env r req w in
  (∃ resp, out.1 = Ok resp) ∧ router_scope r w out.2.
Proof.
  intros out. subst out.
  assert (∀ next, @protected r = true -> unauthenticated w ->
                  isDoctorLoggedIn next w = doctorRouter env r req w ->
                  (∃ resp, (doctorRouter env r req w).1 = Ok resp)
                  ∧ router_scope r w (doctorRouter env r req w).2) as Hblock.
  { intros next _ Hu <-. rewrite (isDoctorLoggedIn_blocks next w Hu).
    split; [by eexists |]. by apply router_scope_same_store. }
  destruct r; cbn [doctorRouter].
  - (* register *)
    destruct (register_cases env req w)
      as [(d & _ & ->) | [(_ & p & s & l & _ & _ & _ & _ & ->)
                         | (_ & msg & n & t & ->)]]; cbn [fst snd].
    + split; [by eexists |]. by apply router_scope_same_store.
    + split; [by eexists |]. unfold router_scope. cbn. repeat split.
      eexists (doctors w), [_]. split; [done |].
      split; [apply same_credentials_refl | by right].
    + split; [by eexists |]. by apply router_scope_same_store.
  - (* login *)
    destruct (login_effect env req w) as (Hd & Ha & resp & Hr & _).
    split; [by eexists |]. unfold router_scope. rewrite Hd, Ha.
    repeat split; [done |]. exists (doctors w), []. rewrite app_nil_r.
    split; [done |]. split; [apply same_credentials_refl | by left].
  - (* dashboard *)
    destruct (session_cases w) as [Hu | [sess Hsess]];
      [by eapply Hblock |].
    destruct (dashboard_run_full req w sess Hsess) as (resp & ->).
    split; [by eexists |]. by apply router_scope_same_store.
  - (* profile *)
    destruct (session_cases w) as [Hu | [sess Hsess]];
      [by eapply Hblock |].
    rewrite (profile_run req w sess Hsess).
    split; [by eexists |]. by apply router_scope_same_store.
  - (* profile update *)
    destruct (session_cases w) as [Hu | [sess Hsess]];
      [by eapply Hblock |].
    rewrite (profile_update_run env req w sess Hsess).
    split; [by eexists |].
    eapply router_scope_update; cycle 1;
      [reflexivity | reflexivity | reflexivity | by intros d].
  - (* profile picture *)
    destruct (session_cases w) as [Hu | [sess Hsess]];
      [by eapply Hblock |].
    rewrite (profile_picture_run env req w sess Hsess).
    destruct (file req) as [path |];
      [destruct (cloudinary_upload env path) as [url | e] |].
    + split; [by eexists |].
      eapply router_scope_update; cycle 1;
        [reflexivity | reflexivity | reflexivity | by intros d].
    + split; [by eexists |]. by apply router_scope_same_store.
    + split; [by eexists |]. by apply router_scope_same_store.
  - (* appointments *)
    destruct (session_cases w) as [Hu | [sess Hsess]];
      [by eapply Hblock |].
    rewrite (get_appointments_route_run req w sess Hsess).
    split; [by eexists |]. by apply router_scope_same_store.
  - (* confirm *)
    destruct (session_cases w) as [Hu | [sess Hsess]];
      [by eapply Hblock |].
    destruct (appointments w !! params_appointmentId req) as [a |] eqn:Ha.
    + destruct (decide (Appointment.doctorid a = doctorId sess)) as [Ho | Ho].
      * rewrite (confirm_run_owned_trace env req w sess a Hsess Ha Ho).
        split; [by eexists |]. unfold router_scope. cbn. repeat split.
        -- done.
        -- rewrite dom_insert_L.
           apply subseteq_union_1_L, singleton_subseteq_l.
           by apply elem_of_dom_2 in Ha.
        -- exists (doctors w), []. rewrite app_nil_r.
           split; [done |]. split; [apply same_credentials_refl | by left].
      * rewrite (confirm_run_missing env req w sess Hsess).
        -- split; [by eexists |]. by apply router_scope_same_store.
        -- right. eauto.
    + destruct (cast_id_error env (params_appointmentId req)) as [e |] eqn:Hc.
      * rewrite (confirm_run_malformed env req w sess e Hsess Ha Hc).
        split; [by eexists |]. by apply router_scope_same_store.
      * rewrite (confirm_run_missing env req w sess Hsess); [| by left].
        split; [by eexists |]. by apply router_scope_same_store.
Qed.

(** X25. Every route of the doctor router whose handler is all there is
    behind the gate (register, login, dashboard, profile, profile update,
    appointments, confirm: every route but the picture upload, which has
    the upload middleware in front, and logout, which has no [try])
    answers every request: whatever the session, the body, the store and
    the collaborators do, no exception leaves the handler. *)
Theorem doctorRouter_always_answers env r req w :
  r ≠ POST_profile_picture ->
  ∃ resp, (doctorRouter env r req w).1 = Ok resp
          ∧ response_of (doctorRouter env r req w) = Some resp.
Proof.
  intros _.
  destruct (doctorRouter_effect env r req w) as [[resp H] _].
  exists resp. split; [done |]. unfold response_of. by rewrite H.
Qed.

Lemma doctorRouter_always_answers_witness :
  ∃ resp,
    (doctorRouter Sample.env POST_appointments_confirm
       (mkRequest "nope" Sample.slot None) Sample.world).1 = Ok resp
    ∧ response_of
        (doctorRouter Sample.env POST_appointments_confirm
           (mkRequest "nope" Sample.slot None) Sample.world) = Some resp.
Proof.
  apply (doctorRouter_always_answers Sample.env POST_appointments_confirm).
  discriminate.
Defined.

(** X26. No route of the doctor router changes the email, password hash,
    doctor identifier or approval status of a stored doctor, and none
    removes or reorders doctors; only registration adds one.  In
    particular no doctor route can approve an account. *)
Theorem doctorRouter_keeps_credentials env r req w :
  ∃ ds' added,
    doctors (doctorRouter env r req w).2 = (ds' ++ added)%list
    ∧ Forall2 same_credentials (doctors w) ds'
    ∧ (added = [] ∨ r = POST_register).
Proof.
  destruct (doctorRouter_effect env r req w) as [_ (_ & _ & _ & H)]. exact H.
Qed.

(** X27. Of the routes of the doctor router only login and logout change
    the session, and only confirm changes an appointment; no route adds or
    removes an appointment id.  Logout, whatever the session store reports,
    leaves the session as it was or without a session, and writes neither
    collection. *)
Theorem doctorRouter_write_scope env r req w :
  let out := doctorRouter env r req w in
  ((r ≠ POST_login -> session out.2 = session w)
   ∧ (r ≠ POST_appointments_confirm -> appointments out.2 = appointments w)
   ∧ dom (appointments out.2) = dom (appointments w))
  ∧ ∀ store_error,
      let out' := logout store_error req w in
      (session out'.2 = session w ∨ session out'.2 = None)
      ∧ appointments out'.2 = appointments w
      ∧ doctors out'.2 = doctors w.
Proof.
  split.
  - destruct (doctorRouter_effect env r req w) as [_ (H1 & H2 & H3 & _)].
    by repeat split.
  - intros store_error out'. subst out'. open_world w. unfold logout. run.
    destruct s; run; [| by repeat split; left].
    destruct store_error; run; repeat split; auto.
Qed.

Lemma doctorRouter_write_scope_witness :
  session (doctorRouter Sample.env POST_appointments_confirm
             (mkRequest "a1" Sample.slot None) Sample.world).2
  = Some Sample.sess
  ∧ appointments (doctorRouter Clinic.env POST_login
                    (mkRequest "" Clinic.carol_login None) Clinic.world).2
    = appointments Clinic.world
  ∧ session (logout None (mkRequest "" Body.empty None) Sample.world).2 = None.
Proof.
  split; [| split].
  - by apply (doctorRouter_write_scope Sample.env POST_appointments_confirm).
  - by apply (doctorRouter_write_scope Clinic.env POST_login).
  - destruct (doctorRouter_write_scope Sample.env POST_login
                (mkRequest "" Body.empty None) Sample.world) as [_ H].
    by destruct (H None) as ([H1 | H1] & _).
Defined.
